(** * SWORDS collect_variables: rate-limit-aware fetch-and-retry scripts

    A shallow embedding of
    - [collect_variables/scripts/howfairis_api/howfairis_variables.py]
      (module [Howfairis]) and
    - [collect_variables/scripts/parse_readme/readme_content.py]
      (module [Readme]),
    followed by the properties of the retry loop, the rate limiter, the
    address parser and the README fetcher.

    Network calls, the clock and [time.sleep] are effects.  Every function
    that performs them takes the answers of the outside world as an
    argument and returns, next to its result, the trace of the effects it
    performed, in order.  A Python exception that leaves a function is a
    [Raised] outcome; the [while] loop of [parse_repo] is run on fuel. *)

From Stdlib Require Import Bool Arith List ZArith QArith Qminmax Lia Lqa.
From Stdlib Require Import Ascii String.
Import ListNotations.

Close Scope Q_scope.
Open Scope string_scope.
Open Scope list_scope.

(** ** Python strings

    A [str] is modelled by the bytes of its UTF-8 encoding.  The source only
    searches for, splits at and replaces ASCII characters, which never occur
    inside a multi-byte sequence. *)
Module Py.

(** [s.startswith(p)] *)
Definition startswith (s p : string) : bool := String.prefix p s.

(** [needle in hay] *)
Fixpoint contains (needle hay : string) : bool :=
  String.prefix needle hay
  || match hay with
     | EmptyString => false
     | String _ rest => contains needle rest
     end.

(** [c.lower()] on one character: only the ASCII capitals move. *)
Definition lower_ascii (c : ascii) : ascii :=
  let n := nat_of_ascii c in
  if ((65 <=? n) && (n <=? 90))%nat then ascii_of_nat (n + 32)%nat else c.

(** [s.lower()] *)
Fixpoint lower (s : string) : string :=
  match s with
  | EmptyString => EmptyString
  | String c rest => String (lower_ascii c) (lower rest)
  end.

(** [s.replace(old, new)] for one-character [old] and [new]. *)
Fixpoint replace (old new : ascii) (s : string) : string :=
  match s with
  | EmptyString => EmptyString
  | String c rest =>
      String (if Ascii.eqb c old then new else c) (replace old new rest)
  end.

(** [s.lstrip(c)] for a one-character [c]. *)
Fixpoint lstrip (c : ascii) (s : string) : string :=
  match s with
  | EmptyString => EmptyString
  | String a rest => if Ascii.eqb a c then lstrip c rest else s
  end.

(** [s.rstrip(c)] for a one-character [c]. *)
Fixpoint rstrip (c : ascii) (s : string) : string :=
  match s with
  | EmptyString => EmptyString
  | String a rest =>
      match rstrip c rest with
      | EmptyString => if Ascii.eqb a c then EmptyString else String a EmptyString
      | kept => String a kept
      end
  end.

(** [s.strip(c)] *)
Definition strip (c : ascii) (s : string) : string := rstrip c (lstrip c s).

(** [s.split(sep)] for a one-character [sep]: never the empty list, and
    two adjacent separators give an empty segment. *)
Fixpoint split (sep : ascii) (s : string) : list string :=
  match s with
  | EmptyString => [EmptyString]
  | String a rest =>
      if Ascii.eqb a sep then EmptyString :: split sep rest
      else match split sep rest with
           | [] => [String a EmptyString]
           | seg :: segs => String a seg :: segs
           end
  end.

(** Truth value of a [str]: the empty string is false. *)
Definition truthy (s : string) : bool :=
  match s with EmptyString => false | _ => true end.

(** Does the character occur in the string? *)
Fixpoint has_char (c : ascii) (s : string) : bool :=
  match s with
  | EmptyString => false
  | String a rest => Ascii.eqb a c || has_char c rest
  end.

End Py.

(** ** Results of calls that may raise *)

(** What a call into the outside world gives back: a value, or an
    exception of type [E]. *)
Inductive res (E A : Type) : Type :=
| Ret (a : A)
| Raise (e : E).
Arguments Ret {E A} a.
Arguments Raise {E A} e.

(** How the run of a function ends: it returns, an exception leaves it,
    or (for the retry loop only) the fuel is used up before it ends. *)
Inductive outcome (E A : Type) : Type :=
| Returned (a : A)
| Raised (e : E)
| OutOfFuel.
Arguments Returned {E A} a.
Arguments Raised {E A} e.
Arguments OutOfFuel {E A}.

(** Put the effects that happened first in front of the rest of a run. *)
Definition after {R Ev : Type} (done : list Ev) (r : R * list Ev)
  : R * list Ev :=
  (fst r, done ++ snd r).

(** ** howfairis_variables.py *)
Module Howfairis.

(** An exception seen through [str(error)], the only thing the handler of
    [parse_repo] looks at. *)
Inductive exn : Type :=
| Error (msg : string).

Definition str (e : exn) : string :=
  match e with Error msg => msg end.

(** The object returned by [Checker.check_five_recommendations]. *)
Record Compliance : Type := mkCompliance {
  repository : bool;
  license : bool;
  registry : bool;
  citation : bool;
  checklist : bool
}.

(** An element of the Python list [entry]. *)
Inductive value : Type :=
| VStr (s : string)
| VBool (b : bool).

Definition entry : Type := list value.

(** Effects, in the order the script performs them. *)
Inductive event : Type :=
| CallChecker (url : string)         (* Repo(url), Checker(...), check_five_recommendations() *)
| CallRateLimit                      (* api.rate_limit.get() *)
| Sleep (seconds : Z)                (* time.sleep(seconds) *)
| PrintUnsupported (url : string)    (* "Skipping unsupported repository: ..." *)
| PrintEntry (e : entry)             (* print(entry) *)
| PrintError (url msg : string)      (* "Error occurred for ... Error message: ..." *)
| PrintSkipping                      (* "Skipping repository..." *)
| PrintProgress (counter total : nat). (* "Parsed ... out of ... repos." *)

Definition trace : Type := list event.

(** The answers of the outside world to the calls made for one row.  The
    [k]-th pass through the loop body (from 0) receives [checker k]; when
    its handler asks for the rate limit it receives [rate_reset k], the
    value of [api.rate_limit.get()["rate"]["reset"]], and [clock k], the
    value of [int(time.time())]. *)
Record World : Type := mkWorld {
  checker : nat -> res exn Compliance;
  rate_reset : nat -> res exn Z;
  clock : nat -> Z
}.

(** [get_howfairis_compliance]: the five flags in the order
    repository, license, registry, citation, checklist.  An exception of
    [Repo], [Checker] or the check leaves the function unchanged.  The
    function returns a tuple whenever it returns, so the test
    [compliance is not None] of [parse_repo] never fails. *)
Definition get_howfairis_compliance (w : World) (k : nat) (url_repo : string)
  : res exn (bool * bool * bool * bool * bool) :=
  match checker w k with
  | Ret c => Ret (repository c, license c, registry c, citation c, checklist c)
  | Raise e => Raise e
  end.

Definition supported_domains : list string := ["github.com"; "gitlab.com"].

(** [is_supported_repo]: [any(domain in url for domain in supported_domains)] *)
Definition is_supported_repo (url : string) : bool :=
  existsb (fun domain => Py.contains domain url) supported_domains.

Definition default_branch_message : string :=
  "Something went wrong asking the repo for its default branch".

Definition timeout_message : string := "TimeoutError".

(** [time.sleep(seconds)]: a negative argument raises [ValueError]. *)
Definition sleep (seconds : Z) : res exn event :=
  if (seconds <? 0)%Z then Raise (Error "sleep length must be non-negative")
  else Ret (Sleep seconds).

(** [entry = [repo_url]; entry.extend(compliance)] *)
Definition extend_entry (repo_url : string)
  (compliance : bool * bool * bool * bool * bool) : entry :=
  let '(r, l, g, c, q) := compliance in
  [VStr repo_url] ++ [VBool r; VBool l; VBool g; VBool c; VBool q].

(** The [while not request_successful] loop of [parse_repo], started at
    pass [k].  One unit of fuel is one pass through the loop body. *)
Fixpoint retry_loop (fuel : nat) (w : World) (repo_url : string) (k : nat)
  : outcome exn (option entry) * trace :=
  match fuel with
  | O => (OutOfFuel, [])
  | S fuel' =>
      match get_howfairis_compliance w k repo_url with
      | Ret compliance =>
          let entry := extend_entry repo_url compliance in
          (Returned (Some entry),
           [CallChecker repo_url; PrintEntry entry; Sleep 1])
      | Raise error =>
          let seen := [CallChecker repo_url; PrintError repo_url (str error)] in
          if Py.contains default_branch_message (str error) then
            (Returned None, seen ++ [PrintSkipping])
          else if Py.contains timeout_message (str error) then
            after (seen ++ [Sleep 5]) (retry_loop fuel' w repo_url (S k))
          else
            match rate_reset w k with
            | Raise e => (Raised e, seen ++ [CallRateLimit])
            | Ret reset =>
                let sleep_time := (reset - clock w k)%Z in
                match sleep (sleep_time + 2)%Z with
                | Raise e => (Raised e, seen ++ [CallRateLimit])
                | Ret slept =>
                    after (seen ++ [CallRateLimit; slept])
                          (retry_loop fuel' w repo_url (S k))
                end
            end
      end
  end.

(** [parse_repo] *)
Definition parse_repo (fuel : nat) (w : World) (repo_url : string)
  : outcome exn (option entry) * trace :=
  if negb (is_supported_repo repo_url) then
    (Returned None, [PrintUnsupported repo_url])
  else retry_loop fuel w repo_url 0.

(** The loop of the main block over [df_repos["html_url"]]: [rows] pairs
    every URL with the world its fetch meets, [counter] is the index of
    the first of them and [total] is [len(df_repos.index)].  An exception
    that leaves [parse_repo] leaves the loop. *)
Fixpoint main_loop (fuel : nat) (rows : list (string * World))
  (counter total : nat) (howfairis_variables : list entry)
  : outcome exn (list entry) * trace :=
  match rows with
  | [] => (Returned howfairis_variables, [])
  | (repo_url, w) :: rows' =>
      match parse_repo fuel w repo_url with
      | (Raised e, t) => (Raised e, t)
      | (OutOfFuel, t) => (OutOfFuel, t)
      | (Returned result, t) =>
          let collected :=
            match result with
            | Some e => howfairis_variables ++ [e]
            | None => howfairis_variables
            end in
          let progress :=
            if (counter mod 10 =? 0)%nat then [PrintProgress counter total]
            else [] in
          after (t ++ progress)
                (main_loop fuel rows' (S counter) total collected)
      end
  end.

(** The rows of the data frame handed to [pd.DataFrame]. *)
Definition main (fuel : nat) (rows : list (string * World))
  : outcome exn (list entry) * trace :=
  main_loop fuel rows 0 (List.length rows) [].

(** Number of fetch attempts in a trace. *)
Definition attempts (t : trace) : nat :=
  List.length (filter (fun ev => match ev with CallChecker _ => true | _ => false end) t).

(** The pauses of a trace, in order. *)
Fixpoint sleeps (t : trace) : list Z :=
  match t with
  | [] => []
  | Sleep d :: t' => d :: sleeps t'
  | _ :: t' => sleeps t'
  end.

(** A row of the result set: the URL, then the five flags in the order
    repository, license, registry, citation, checklist. *)
Definition row_of (url : string) (e : entry) : Prop :=
  exists c : Compliance,
    e = [VStr url; VBool (repository c); VBool (license c);
         VBool (registry c); VBool (citation c); VBool (checklist c)].

(** The handler of [parse_repo] takes its timeout branch: the test for
    the default-branch message, made first, fails and the message contains
    the literal ["TimeoutError"].  A timeout that is worded otherwise (a
    message with "Read timed out", say) does not pass this test. *)
Definition indicates_timeout (msg : string) : bool :=
  negb (Py.contains default_branch_message msg)
  && Py.contains timeout_message msg.

(** What one row contributes to the result set: the result of
    [parse_repo] unless it is [None]. *)
Definition contribution (fuel : nat) (row : string * World) : list entry :=
  match fst (parse_repo fuel (snd row) (fst row)) with
  | Returned (Some e) => [e]
  | _ => []
  end.

(** The progress lines of a trace: counter and total, in order. *)
Fixpoint progress (t : trace) : list (nat * nat) :=
  match t with
  | [] => []
  | PrintProgress counter total :: t' => (counter, total) :: progress t'
  | _ :: t' => progress t'
  end.

(** Number of rate-limit queries in a trace. *)
Definition rate_limit_queries (t : trace) : nat :=
  List.length (filter (fun ev => match ev with CallRateLimit => true | _ => false end) t).

(** The pandas call that [read_input_file] makes. *)
Inductive reader : Type :=
| ReadExcel (file_path engine : string)              (* pd.read_excel(file_path, engine=...) *)
| ReadCsv (file_path delimiter encoding : string).   (* pd.read_csv(file_path, delimiter=..., encoding=...) *)

(** [read_input_file]: the reader is chosen by the test ["xlsx" in file_path]. *)
Definition read_input_file (file_path : string) : reader :=
  if Py.contains "xlsx" file_path then ReadExcel file_path "openpyxl"
  else ReadCsv file_path ";" "latin1".

(** The longest time, in seconds, that [time.sleep] takes: it counts
    nanoseconds in 64 bits and raises [OverflowError] beyond. *)
Definition sleep_max : Z := 9223372036.

(** A cell of the column [html_url] as the main loop hands it to
    [parse_repo]: a [str], or a scalar of another type, whose name is
    [type_name] (pandas gives the float NaN for an empty cell). *)
Inductive cell : Type :=
| Str (url : string)
| NotStr (type_name : string).

(** [parse_repo] on any cell.  For a value that is not a [str] the test
    [domain in url] of [is_supported_repo] raises [TypeError] before
    anything else is done. *)
Definition parse_repo_cell (fuel : nat) (w : World) (repo_url : cell)
  : outcome exn (option entry) * trace :=
  match repo_url with
  | Str url => parse_repo fuel w url
  | NotStr type_name =>
      (Raised (Error ("argument of type '" ++ type_name ++ "' is not iterable")),
       [])
  end.

End Howfairis.

(** ** readme_content.py *)
Module Readme.

(** A [requests.Response], as far as the script reads it.  [ok] is the
    truth value of the object in [if response:].  The two rate-limit
    headers are taken as already converted by [int]; [None] is an absent
    header. *)
Record Response : Type := mkResponse {
  status_code : Z;
  ok : bool;
  ratelimit_remaining : option Z;
  ratelimit_reset : option Z;
  text : string
}.

(** The exception classes the script tells apart. *)
Inductive exn : Type :=
| HTTPError (response : Response)   (* requests.exceptions.HTTPError *)
| Timeout                           (* requests.exceptions.Timeout *)
| Error (msg : string).             (* any other Exception *)

(** [rate_limit.core] of the answer to the rate-limit query. *)
Record Quota : Type := mkQuota {
  remaining : Z;
  reset : Z
}.

(** An element of the directory listing.  [content = None] is a
    listing entry without the key ['content']. *)
Record Entry : Type := mkEntry {
  name : string;
  content : option string;
  download_url : option string
}.

Inductive log : Type :=
| RateLimitExceeded (wait_time : Q)
| RateCheckFailed
| SleepingTwentyMinutes
| HTTPErrorOccurred
| TimeoutRepository
| TimeoutDownload (url : string)
| InvalidURL (url : string)
| InvalidFormat (url : string)
| ProcessingRepository (owner repo url : string)
| ProcessingURL (url : string)
| SkippingNonGitHub (url : string).

(** Effects, in the order the script performs them. *)
Inductive event : Type :=
| CallRateLimit                       (* api.rate_limit.get_rate_limit() *)
| CallGetContent (owner repo : string) (* api.repos.get_content(owner, repo, path) with the empty path *)
| CallDownload (url : string)         (* requests.get(url, timeout=10) *)
| Sleep (seconds : Q)                 (* time.sleep(seconds) *)
| Print (line : log).

Definition trace : Type := list event.

(** The answers of the outside world to the calls made for one row.
    [download i url] answers the request for the [i]-th entry of the
    listing; [now_check] and [now_handle] are the values of [time.time()]
    read by [check_rate_limit] and by [handle_rate_limit]. *)
Record Net : Type := mkNet {
  rate_limit : res exn Quota;
  now_check : Q;
  get_content : string -> string -> res exn (list Entry);
  now_handle : Q;
  download : nat -> string -> res exn Response
}.

(** The functions of the Python library the script calls on strings:
    [urllib.parse.unquote], [urllib.parse.urlparse(...).path] and
    [base64.b64decode(...).decode('utf-8')]. *)
Class PyLib : Type := {
  unquote : string -> string;
  urlparse_path : string -> res exn string;
  b64decode_utf8 : string -> res exn string
}.

Definition nl : string := String (ascii_of_nat 10) EmptyString.

(** [is_github_url] *)
Definition is_github_url (url : string) : bool :=
  Py.startswith url "https://github.com".

(** [max(0, x)]: the first argument unless the second is greater. *)
Definition max0 (x : Q) : Q := if Qle_bool x 0 then 0%Q else x.

Definition twenty_minutes : Q := inject_Z (20 * 60).

(** [check_rate_limit]: every exception raised inside is caught. *)
Definition check_rate_limit (n : Net) : trace :=
  match rate_limit n with
  | Ret rate =>
      if (remaining rate =? 0)%Z then
        let wait_time := max0 (inject_Z (reset rate) - now_check n)%Q in
        [CallRateLimit; Print (RateLimitExceeded wait_time);
         Sleep (wait_time + 1)%Q]
      else [CallRateLimit]
  | Raise _ =>
      [CallRateLimit; Print RateCheckFailed; Sleep twenty_minutes]
  end.

(** [response.headers.get(key, 0)] followed by [int]. *)
Definition header_int (h : option Z) : Z :=
  match h with Some v => v | None => 0%Z end.

(** [handle_rate_limit] *)
Definition handle_rate_limit (response : option Response) (now : Q) : trace :=
  match response with
  | Some r =>
      if ok r then
        let remaining := header_int (ratelimit_remaining r) in
        let reset_time := header_int (ratelimit_reset r) in
        if (remaining =? 0)%Z then
          let wait_time := max0 (inject_Z reset_time - now)%Q in
          [Print (RateLimitExceeded wait_time); Sleep (wait_time + 1)%Q]
        else []
      else [Print SleepingTwentyMinutes; Sleep twenty_minutes]
  | None => [Print SleepingTwentyMinutes; Sleep twenty_minutes]
  end.

(** [get_content_from_github]: only [HTTPError] and [Timeout] are caught. *)
Definition get_content_from_github (n : Net) (owner repo : string)
  : res exn (option (list Entry)) * trace :=
  let checked := check_rate_limit n ++ [CallGetContent owner repo] in
  match get_content n owner repo with
  | Ret listing => (Ret (Some listing), checked)
  | Raise (HTTPError response) =>
      if (status_code response =? 403)%Z then
        (Ret None, checked ++ handle_rate_limit (Some response) (now_handle n))
      else (Ret None, checked ++ [Print HTTPErrorOccurred])
  | Raise Timeout => (Ret None, checked ++ [Print TimeoutRepository])
  | Raise e => (Raise e, checked)
  end.

(** [response.raise_for_status()] raises for the 4xx and 5xx codes. *)
Definition raise_for_status (response : Response) : res exn unit :=
  if ((400 <=? status_code response) && (status_code response <? 600))%Z
  then Raise (HTTPError response)
  else Ret tt.

Section WithLibrary.

Context {lib : PyLib}.

(** [download_readme_content], for the [i]-th entry of the listing.
    Only [Timeout] is caught. *)
Definition download_readme_content (n : Net) (i : nat) (entry : Entry)
  : res exn (option string) * trace :=
  match content entry with
  | Some body =>
      match b64decode_utf8 body with
      | Ret decoded => (Ret (Some decoded), [])
      | Raise e => (Raise e, [])
      end
  | None =>
      match download_url entry with
      | Some url =>
          if Py.truthy url then
            match download n i url with
            | Ret response =>
                match raise_for_status response with
                | Ret _ => (Ret (Some (text response)), [CallDownload url])
                | Raise e => (Raise e, [CallDownload url])
                end
            | Raise Timeout =>
                (Ret None, [CallDownload url; Print (TimeoutDownload url)])
            | Raise e => (Raise e, [CallDownload url])
            end
          else (Ret None, [])
      | None => (Ret None, [])
      end
  end.

(** [readme_content.replace(',', ' ').replace(';', ' ')] *)
Definition sanitize (readme_content : string) : string :=
  Py.replace ";" " " (Py.replace "," " " readme_content).

(** [f"README_start\n{readme_content}\nREADME_end"] *)
Definition wrap (readme_content : string) : string :=
  "README_start" ++ nl ++ readme_content ++ nl ++ "README_end".

(** The [for content in contents] loop of [get_readme_content], from the
    [i]-th entry on. *)
Fixpoint scan_contents (n : Net) (i : nat) (contents : list Entry)
  : res exn (option string) * trace :=
  match contents with
  | [] => (Ret None, [])
  | entry :: rest =>
      if Py.startswith (Py.lower (name entry)) "readme" then
        match download_readme_content n i entry with
        | (Raise e, t) => (Raise e, t)
        | (Ret (Some readme_content), t) =>
            if Py.truthy readme_content then
              (Ret (Some (wrap (sanitize readme_content))), t)
            else after t (scan_contents n (S i) rest)
        | (Ret None, t) => after t (scan_contents n (S i) rest)
        end
      else scan_contents n (S i) rest
  end.

(** [get_readme_content].  The argument is a [str] already. *)
Definition get_readme_content (github_url : string) (n : Net)
  : res exn (option string) * trace :=
  if negb (is_github_url github_url) then
    (Ret None, [Print (InvalidURL github_url)])
  else
    match urlparse_path (unquote github_url) with
    | Raise e => (Raise e, [])
    | Ret path =>
        let path_parts := Py.split "/" (Py.strip "/" path) in
        if (List.length path_parts <? 2)%nat then
          (Ret None, [Print (InvalidFormat github_url)])
        else
          let owner := nth 0 path_parts EmptyString in
          let repo := nth 1 path_parts EmptyString in
          after [Print (ProcessingRepository owner repo github_url)]
            match get_content_from_github n owner repo with
            | (Raise e, t) => (Raise e, t)
            | (Ret None, t) => (Ret None, t)
            | (Ret (Some contents), t) => after t (scan_contents n 0 contents)
            end
    end.

(** The loop of [process_csv_file] over the rows, each [html_url] already
    converted to a stripped [str], paired with the world its fetch meets.
    The result is the [readme] column.  An exception that leaves
    [get_readme_content] leaves the loop. *)
Fixpoint process_rows (rows : list (string * Net))
  : res exn (list (option string)) * trace :=
  match rows with
  | [] => (Ret [], [])
  | (html_url, n) :: rows' =>
      if is_github_url html_url then
        match get_readme_content html_url n with
        | (Raise e, t) => (Raise e, Print (ProcessingURL html_url) :: t)
        | (Ret readme_content, t) =>
            let cell :=
              match readme_content with
              | Some s => if Py.truthy s then Some s else None
              | None => None
              end in
            match process_rows rows' with
            | (Raise e, t') =>
                (Raise e, Print (ProcessingURL html_url) :: t ++ t')
            | (Ret cells, t') =>
                (Ret (cell :: cells), Print (ProcessingURL html_url) :: t ++ t')
            end
        end
      else
        match process_rows rows' with
        | (Raise e, t') => (Raise e, Print (SkippingNonGitHub html_url) :: t')
        | (Ret cells, t') =>
            (Ret (None :: cells), Print (SkippingNonGitHub html_url) :: t')
        end
  end.

End WithLibrary.

(** Total time slept in a trace. *)
Fixpoint slept (t : trace) : Q :=
  match t with
  | [] => 0%Q
  | Sleep d :: t' => (d + slept t')%Q
  | _ :: t' => slept t'
  end.

(** Number of rate-limit queries, of listing requests and of downloads
    in a trace. *)
Definition rate_limit_calls (t : trace) : nat :=
  List.length (filter (fun ev => match ev with CallRateLimit => true | _ => false end) t).

Definition listing_calls (t : trace) : nat :=
  List.length (filter (fun ev => match ev with CallGetContent _ _ => true | _ => false end) t).

Definition download_calls (t : trace) : nat :=
  List.length (filter (fun ev => match ev with CallDownload _ => true | _ => false end) t).

(** Does the loop of [get_readme_content] look at this entry? *)
Definition readme_named (entry : Entry) : bool :=
  Py.startswith (Py.lower (name entry)) "readme".

(** The truth value that requests gives a response: [Response.__bool__]
    returns [ok], which is false exactly for the codes for which
    [raise_for_status] raises. *)
Definition truth_value (status_code : Z) : bool :=
  negb ((400 <=? status_code) && (status_code <? 600))%Z.

(** A response as requests builds it: its truth value follows from its
    status code. *)
Definition response (status_code : Z) (remaining reset : option Z)
  (text : string) : Response :=
  mkResponse status_code (truth_value status_code) remaining reset text.

End Readme.

(** ** download_stats.py *)
Module DownloadStats.

Inductive exn : Type :=
| Error (msg : string).

(** One line of the input file after [json.loads].  [owner = None] and
    [readme = None] are objects without that key; [readme = Some s] holds
    [str(readme)].  The key [repository_name] is read outside every [try]
    and is taken to be present. *)
Record Repo : Type := mkRepo {
  repository_name : string;
  owner : option string;
  readme : option string
}.

(** A dictionary appended to [result]. *)
Record Row : Type := mkRow {
  row_name : string;
  row_owner : string;
  last_month : Z;
  date : string
}.

Inductive registry : Type := PyPI | CRAN | NPM.

Inductive event : Type :=
| Get (url : string)                   (* requests.get(url, timeout=REQUEST_TIMEOUT) *)
| PrintLooking (r : registry) (name : string) (* "Download stats for ... '{name}'" *)
| PrintStats (downloads : Z)           (* print of the number read from the answer *)
| PrintMissing.                        (* "Repository does not exist" *)

Definition trace : Type := list event.

(** The groups captured by [re.finditer] for the three patterns, one
    string per match, in the order of the matches: group 2 of the
    pattern for pip install, group 1 of the pattern for install.packages
    and group 3 of the pattern for npm install.  These groups take part in
    every match of their pattern. *)
Class Regex : Type := {
  pip_install_names : string -> list string;
  install_packages_names : string -> list string;
  npm_install_names : string -> list string
}.

(** The registries: [downloads url] is the number that the script reads
    from the JSON answer to [requests.get(url)], or the exception raised
    by the request, by [json()] or by a missing key. *)
Record Web : Type := mkWeb {
  downloads : string -> res exn Z
}.

(** [PYPI_STATS.format(name)], [CRAN_STATS.format(name)], [NPM_STATS.format(name)] *)
Definition pypi_stats (name : string) : string :=
  "https://pypistats.org/api/packages/" ++ name ++ "/recent".

Definition cran_stats (name : string) : string :=
  "https://cranlogs.r-pkg.org/downloads/total/last-month/" ++ name.

Definition npm_stats (name : string) : string :=
  "https://api.npmjs.org/downloads/point/last-month/" ++ name.

(** The body of the three [try] blocks: the request, the print of the
    number, then the new dictionary, whose construction reads
    [repo["owner"]] and raises [KeyError] when the key is missing. *)
Definition fetch_row (today : string) (web : Web) (repo : Repo) (url : string)
  : res exn Row * trace :=
  match downloads web url with
  | Raise e => (Raise e, [Get url])
  | Ret n =>
      match owner repo with
      | None => (Raise (Error "KeyError: 'owner'"), [Get url; PrintStats n])
      | Some o =>
          (Ret (mkRow (repository_name repo) o n today), [Get url; PrintStats n])
      end
  end.

(** The loop over the matches of [pip install]: the first match whose
    group equals the name is looked up, then the loop breaks.  A failure
    is passed over in silence. *)
Fixpoint python_matches (today : string) (web : Web) (repo : Repo)
  (matches : list string) (result : list Row) : list Row * trace :=
  match matches with
  | [] => (result, [])
  | group :: rest =>
      if String.eqb (repository_name repo) group then
        let name := repository_name repo in
        match fetch_row today web repo (pypi_stats name) with
        | (Ret row, t) => (result ++ [row], PrintLooking PyPI name :: t)
        | (Raise _, t) => (result, PrintLooking PyPI name :: t)
        end
      else python_matches today web repo rest result
  end.

(** The loop over the matches of [install.packages]: a failure is raised
    again and leaves the script. *)
Fixpoint r_matches (today : string) (web : Web) (repo : Repo)
  (matches : list string) (result : list Row) : res exn (list Row) * trace :=
  match matches with
  | [] => (Ret result, [])
  | group :: rest =>
      if String.eqb (repository_name repo) group then
        let name := repository_name repo in
        match fetch_row today web repo (cran_stats name) with
        | (Ret row, t) => (Ret (result ++ [row]), PrintLooking CRAN name :: t)
        | (Raise e, t) => (Raise e, PrintLooking CRAN name :: t)
        end
      else r_matches today web repo rest result
  end.

(** The loop over the matches of [npm install]: the first match that
    contains the name is looked up, under the matched text when it holds
    an [@] and under the name otherwise.  A failure is printed. *)
Fixpoint js_matches (today : string) (web : Web) (repo : Repo)
  (matches : list string) (result : list Row) : list Row * trace :=
  match matches with
  | [] => (result, [])
  | group :: rest =>
      if Py.contains (repository_name repo) group then
        let name := repository_name repo in
        let url := if Py.contains "@" group then npm_stats group
                   else npm_stats name in
        match fetch_row today web repo url with
        | (Ret row, t) => (result ++ [row], PrintLooking NPM name :: t)
        | (Raise _, t) => (result, PrintLooking NPM name :: t ++ [PrintMissing])
        end
      else js_matches today web repo rest result
  end.

Section WithRegex.

Context {regex : Regex}.

(** The body of the loop over the lines of the input file. *)
Definition process_line (today : string) (web : Web) (repo : Repo)
  (result : list Row) : res exn (list Row) * trace :=
  match readme repo with
  | None => (Ret result, [])
  | Some text =>
      let '(result1, t1) :=
        python_matches today web repo (pip_install_names text) result in
      match r_matches today web repo (install_packages_names text) result1 with
      | (Raise e, t2) => (Raise e, t1 ++ t2)
      | (Ret result2, t2) =>
          let '(result3, t3) :=
            js_matches today web repo (npm_install_names text) result2 in
          (Ret result3, t1 ++ t2 ++ t3)
      end
  end.

(** The loop over [f.readlines()]; the value is the list [result] that is
    handed to [pd.DataFrame]. *)
Fixpoint process_lines (today : string) (web : Web) (repos : list Repo)
  (result : list Row) : res exn (list Row) * trace :=
  match repos with
  | [] => (Ret result, [])
  | repo :: repos' =>
      match process_line today web repo result with
      | (Raise e, t) => (Raise e, t)
      | (Ret result', t) => after t (process_lines today web repos' result')
      end
  end.

(** A line of the input file, by what [json.loads(line)] and
    [repo["repository_name"]], both outside every [try], make of it. *)
Inductive line : Type :=
| Malformed                           (* not JSON, a blank line included *)
| NotAnObject                         (* JSON, but not an object *)
| NoName                              (* an object without the key repository_name *)
| NameNotStr (readme : option string) (* the name is a number, null, a list, ... *)
| Object (repo : Repo).

(** The body of the loop on any line.  A name that is not a [str] equals
    no match of the first two patterns, and the test
    [name in match.group(3)], which stands before the [try], raises
    [TypeError] at the first match of the third one. *)
Definition process_raw_line (today : string) (web : Web) (l : line)
  (result : list Row) : res exn (list Row) * trace :=
  match l with
  | Malformed => (Raise (Error "JSONDecodeError"), [])
  | NotAnObject => (Raise (Error "TypeError: not subscriptable by a key"), [])
  | NoName => (Raise (Error "KeyError: 'repository_name'"), [])
  | NameNotStr None => (Ret result, [])
  | NameNotStr (Some text) =>
      match npm_install_names text with
      | [] => (Ret result, [])
      | _ :: _ =>
          (Raise (Error "TypeError: 'in <string>' requires string as left operand"),
           [])
      end
  | Object repo => process_line today web repo result
  end.

End WithRegex.

(** Number of requests in a trace. *)
Definition requests (t : trace) : nat :=
  List.length (filter (fun ev => match ev with Get _ => true | _ => false end) t).

(** The URLs requested in a trace, in order. *)
Fixpoint requested (t : trace) : list string :=
  match t with
  | [] => []
  | Get url :: t' => url :: requested t'
  | _ :: t' => requested t'
  end.

(** A row made for this repository on this day. *)
Definition row_for (today : string) (repo : Repo) (row : Row) : Prop :=
  row_name row = repository_name repo
  /\ owner repo = Some (row_owner row)
  /\ date row = today.

(** What one of the three loops does to [result]: it adds nothing, or one
    row of this repository, with at most one request and no row without
    a request. *)
Definition grows_by_one_row (today : string) (repo : Repo)
  (result result' : list Row) (t : trace) : Prop :=
  exists added,
    result' = result ++ added
    /\ List.length added <= List.length (requested t)
    /\ List.length (requested t) <= 1
    /\ Forall (row_for today repo) added.

End DownloadStats.

(** ** The library functions on concrete strings

    A model of the three library functions of [Readme.PyLib], used to run
    the script on concrete rows.  The general properties below do not
    depend on it: they hold for every [PyLib]. *)
Module CPython.

Import Readme.

Definition hex_value (c : ascii) : option N :=
  let n := N_of_ascii c in
  if ((48 <=? n) && (n <=? 57))%N then Some (n - 48)%N
  else if ((65 <=? n) && (n <=? 70))%N then Some (n - 55)%N
  else if ((97 <=? n) && (n <=? 102))%N then Some (n - 87)%N
  else None.

(** [urllib.parse.unquote]: every [%XX] with two hexadecimal digits
    becomes the byte [XX]; any other [%] stays.  (Python replaces decoded
    bytes that are not UTF-8 by U+FFFD; that case is left as the raw
    bytes here.) *)
Fixpoint unquote (s : string) : string :=
  match s with
  | String "%" (String h (String l rest as after_h) as after_pct) =>
      match hex_value h, hex_value l with
      | Some a, Some b => String (ascii_of_N (16 * a + b)) (unquote rest)
      | _, _ => String "%" (unquote after_pct)
      end
  | String c rest => String c (unquote rest)
  | EmptyString => EmptyString
  end.

(** The part of [s] before the first character for which [stop] holds. *)
Fixpoint take_until (stop : ascii -> bool) (s : string) : string :=
  match s with
  | EmptyString => EmptyString
  | String c rest => if stop c then EmptyString else String c (take_until stop rest)
  end.

(** The part of [s] from the first character for which [stop] holds. *)
Fixpoint drop_until (stop : ascii -> bool) (s : string) : string :=
  match s with
  | EmptyString => EmptyString
  | String c rest => if stop c then s else drop_until stop rest
  end.

Definition is_one_of (cs : string) (c : ascii) : bool := Py.has_char c cs.

(** The parameters of the last path segment are cut off at its first [;]
    ([_splitparams]). *)
Fixpoint split_params (path : string) : string :=
  match path with
  | EmptyString => EmptyString
  | String c rest =>
      if Py.has_char "/" rest then String c (split_params rest)
      else take_until (is_one_of ";") path
  end.

(** [urllib.parse.urlparse(url).path] for a URL of the form
    [https://netloc/path;params?query#fragment] without tabs and line
    breaks.  A bracket without its partner in the netloc raises
    [ValueError]. *)
Definition urlparse_path (url : string) : res exn string :=
  if Py.startswith url "https://" then
    let rest := String.substring 8 (String.length url - 8) url in
    let netloc := take_until (is_one_of "/?#") rest in
    let tail := drop_until (is_one_of "/?#") rest in
    if xorb (Py.has_char "[" netloc) (Py.has_char "]" netloc) then
      Raise (Error "Invalid IPv6 URL")
    else Ret (split_params (take_until (is_one_of "?#") tail))
  else Ret (split_params (take_until (is_one_of "?#") url)).

(** Value of a character of the base64 alphabet. *)
Definition b64_value (c : ascii) : option N :=
  let n := N_of_ascii c in
  if ((65 <=? n) && (n <=? 90))%N then Some (n - 65)%N
  else if ((97 <=? n) && (n <=? 122))%N then Some (n - 71)%N
  else if ((48 <=? n) && (n <=? 57))%N then Some (n + 4)%N
  else if (n =? 43)%N then Some 62%N
  else if (n =? 47)%N then Some 63%N
  else None.

Definition emit (byte : N) (r : res exn string) : res exn string :=
  match r with
  | Ret s => Ret (String (ascii_of_N (byte mod 256)) s)
  | Raise e => Raise e
  end.

(** [binascii.a2b_base64] in its default, lenient mode: characters outside
    the alphabet are skipped, and data that stops inside a group of four
    without padding raises [binascii.Error]. *)
Fixpoint a2b_base64 (s : string) (quad_pos : nat) (leftchar : N) (pads : nat)
  : res exn string :=
  match s with
  | EmptyString =>
      if (quad_pos =? 0)%nat then Ret EmptyString
      else Raise (Error "Incorrect padding")
  | String c rest =>
      if Ascii.eqb c "=" then
        if (2 <=? quad_pos)%nat then
          if (4 <=? quad_pos + S pads)%nat then Ret EmptyString
          else a2b_base64 rest quad_pos leftchar (S pads)
        else a2b_base64 rest quad_pos leftchar pads
      else
        match b64_value c with
        | None => a2b_base64 rest quad_pos leftchar pads
        | Some v =>
            match quad_pos with
            | 0 => a2b_base64 rest 1 v 0
            | 1 => emit (N.lor (N.shiftl leftchar 2) (N.shiftr v 4))
                        (a2b_base64 rest 2 (N.land v 15) 0)
            | 2 => emit (N.lor (N.shiftl leftchar 4) (N.shiftr v 2))
                        (a2b_base64 rest 3 (N.land v 3) 0)
            | _ => emit (N.lor (N.shiftl leftchar 6) v)
                        (a2b_base64 rest 0 0%N 0)
            end
        end
  end.

Definition continuation (c : ascii) : bool :=
  let n := N_of_ascii c in ((128 <=? n) && (n <=? 191))%N.

Definition between (lo hi : N) (c : ascii) : bool :=
  let n := N_of_ascii c in ((lo <=? n) && (n <=? hi))%N.

(** Are the bytes well-formed UTF-8 (no overlong forms, no surrogates,
    nothing above U+10FFFF)?  [fuel] bounds the number of characters. *)
Fixpoint utf8_valid (fuel : nat) (s : string) : bool :=
  match fuel with
  | O => match s with EmptyString => true | _ => false end
  | S fuel' =>
      match s with
      | EmptyString => true
      | String a rest =>
          if between 0 127 a then utf8_valid fuel' rest
          else if between 194 223 a then
            match rest with
            | String b rest' => continuation b && utf8_valid fuel' rest'
            | _ => false
            end
          else if between 224 239 a then
            match rest with
            | String b (String c rest') =>
                (if between 224 224 a then between 160 191 b
                 else if between 237 237 a then between 128 159 b
                 else continuation b)
                && continuation c && utf8_valid fuel' rest'
            | _ => false
            end
          else if between 240 244 a then
            match rest with
            | String b (String c (String d rest')) =>
                (if between 240 240 a then between 144 191 b
                 else if between 244 244 a then between 128 143 b
                 else continuation b)
                && continuation c && continuation d && utf8_valid fuel' rest'
            | _ => false
            end
          else false
      end
  end.

(** [base64.b64decode(body).decode('utf-8')] *)
Definition b64decode_utf8 (body : string) : res exn string :=
  match a2b_base64 body 0 0%N 0 with
  | Ret bytes =>
      if utf8_valid (String.length bytes) bytes then Ret bytes
      else Raise (Error "UnicodeDecodeError")
  | Raise e => Raise e
  end.

Definition lib : PyLib :=
  {| Readme.unquote := unquote;
     Readme.urlparse_path := urlparse_path;
     Readme.b64decode_utf8 := b64decode_utf8 |}.

End CPython.

(** ** Concrete rows

    Rows and worlds on which the scripts are run below. *)
Module Samples.

Definition repo_url : string := "https://github.com/fair-software/howfairis".

Definition flags : Howfairis.Compliance :=
  Howfairis.mkCompliance true true false true false.

(** The first [n] attempts raise [msg], every later one succeeds. *)
Definition failing_then_ok (n : nat) (msg : string) : Howfairis.World :=
  {| Howfairis.checker := fun k =>
       if (k <? n)%nat then Raise (Howfairis.Error msg) else Ret flags;
     Howfairis.rate_reset := fun _ => Ret 1700003600%Z;
     Howfairis.clock := fun _ => 1700000000%Z |}.

(** The host never answers in time. *)
Definition always_timeout : Howfairis.World :=
  {| Howfairis.checker := fun _ =>
       Raise (Howfairis.Error "TimeoutError: the read operation timed out");
     Howfairis.rate_reset := fun _ => Ret 1700003600%Z;
     Howfairis.clock := fun _ => 1700000000%Z |}.

(** The repository has no default branch. *)
Definition no_default_branch : Howfairis.World :=
  {| Howfairis.checker := fun _ =>
       Raise (Howfairis.Error
         "Something went wrong asking the repo for its default branch.");
     Howfairis.rate_reset := fun _ => Ret 1700003600%Z;
     Howfairis.clock := fun _ => 1700000000%Z |}.

(** The quota is used up and the rate-limit query fails as well. *)
Definition rate_limit_down : Howfairis.World :=
  {| Howfairis.checker := fun _ =>
       Raise (Howfairis.Error "403 Client Error: rate limit exceeded");
     Howfairis.rate_reset := fun _ =>
       Raise (Howfairis.Error "Connection refused");
     Howfairis.clock := fun _ => 1700000000%Z |}.

Definition quota_left : Readme.Quota := Readme.mkQuota 4999 1700003600.

Definition quota_used_up : Readme.Quota := Readme.mkQuota 0 1700003600.

Definition not_found : Readme.Response :=
  Readme.mkResponse 404 false None None "404: Not Found".

(** The answer to a request over the quota: no request left, reset in
    one hour. *)
Definition forbidden : Readme.Response :=
  Readme.response 403 (Some 0%Z) (Some 1700003600%Z) EmptyString.

(** A host that answers the listing request with [listing], has quota
    left, and answers every download request with 404. *)
Definition net_of (listing : list Readme.Entry) : Readme.Net :=
  {| Readme.rate_limit := Ret quota_left;
     Readme.now_check := inject_Z 1700000000;
     Readme.get_content := fun _ _ => Ret listing;
     Readme.now_handle := inject_Z 1700000000;
     Readme.download := fun _ _ => Ret not_found |}.

(** The same host with the quota used up. *)
Definition net_used_up : Readme.Net :=
  {| Readme.rate_limit := Ret quota_used_up;
     Readme.now_check := inject_Z 1700000000;
     Readme.get_content := fun _ _ => Ret [];
     Readme.now_handle := inject_Z 1700000000;
     Readme.download := fun _ _ => Ret not_found |}.

(** ["YSxi"] is the base64 encoding of ["a,b"]. *)
Definition readme_inline : Readme.Entry :=
  Readme.mkEntry "README.md" (Some "YSxi") None.

(** ["IyBUaXRsZQ=="] is the base64 encoding of ["# Title"]. *)
Definition readme_plain : Readme.Entry :=
  Readme.mkEntry "ReadMe.MD" (Some "IyBUaXRsZQ==") None.

Definition readme_linked : Readme.Entry :=
  Readme.mkEntry "README.md" None
    (Some "https://raw.githubusercontent.com/o/r/main/README.md").

Definition license_file : Readme.Entry :=
  Readme.mkEntry "LICENSE" None
    (Some "https://raw.githubusercontent.com/o/r/main/LICENSE").

(** The quota is used up for the first [n] attempts; the rate-limit query
    answers with a reset time one hour ahead. *)
Definition quota_then_ok (n : nat) : Howfairis.World :=
  {| Howfairis.checker := fun k =>
       if (k <? n)%nat
       then Raise (Howfairis.Error "403 Client Error: rate limit exceeded")
       else Ret flags;
     Howfairis.rate_reset := fun _ => Ret 1700003600%Z;
     Howfairis.clock := fun _ => 1700000000%Z |}.

(** The rate-limit query of the README script fails. *)
Definition net_query_down (listing : list Readme.Entry) : Readme.Net :=
  {| Readme.rate_limit := Raise (Readme.Error "Connection refused");
     Readme.now_check := inject_Z 1700000000;
     Readme.get_content := fun _ _ => Ret listing;
     Readme.now_handle := inject_Z 1700000000;
     Readme.download := fun _ _ => Ret not_found |}.

(** A response that counts as true and carries no rate-limit header. *)
Definition bare_response : Readme.Response :=
  Readme.mkResponse 200 true None None EmptyString.

(** The README of a Python package that is also on npm, with the matches
    of the three patterns, and registries that know the package. *)
Definition stats_repo : DownloadStats.Repo :=
  DownloadStats.mkRepo "howfairis" (Some "fair-software")
    (Some "pip install howfairis then npm install @fair-software/howfairis ").

Definition stats_regex : DownloadStats.Regex :=
  {| DownloadStats.pip_install_names := fun _ => ["howfairis"];
     DownloadStats.install_packages_names := fun _ => [];
     DownloadStats.npm_install_names := fun _ => ["@fair-software/howfairis "] |}.

(** The R package of the same name is not on CRAN. *)
Definition stats_regex_r : DownloadStats.Regex :=
  {| DownloadStats.pip_install_names := fun _ => [];
     DownloadStats.install_packages_names := fun _ => ["ggplot2"; "howfairis"];
     DownloadStats.npm_install_names := fun _ => [] |}.

Definition stats_web : DownloadStats.Web :=
  {| DownloadStats.downloads := fun url =>
       if Py.contains "cranlogs" url
       then Raise (DownloadStats.Error "IndexError: list index out of range")
       else Ret 1234%Z |}.

(** The listing request is answered with 403 at 1700000000, one hour
    before the reset. *)
Definition net_forbidden : Readme.Net :=
  {| Readme.rate_limit := Ret quota_left;
     Readme.now_check := inject_Z 1700000000;
     Readme.get_content := fun _ _ => Raise (Readme.HTTPError forbidden);
     Readme.now_handle := inject_Z 1700000000;
     Readme.download := fun _ _ => Ret not_found |}.

(** A timeout of the HTTP library, as urllib3 words it. *)
Definition read_timed_out : string :=
  "HTTPSConnectionPool(host='api.github.com', port=443): Read timed out. (read timeout=10)".

End Samples.

(** * Properties *)

(** ** The retry loop of [parse_repo] *)

Section RetryLoop.

Import Howfairis.

Lemma attempts_app (t1 t2 : trace) :
  attempts (t1 ++ t2) = (attempts t1 + attempts t2)%nat.
Proof.
  unfold attempts. rewrite filter_app, length_app. reflexivity.
Qed.

Lemma sleeps_app (t1 t2 : trace) : sleeps (t1 ++ t2) = sleeps t1 ++ sleeps t2.
Proof.
  induction t1 as [|ev t1 IH]; simpl; [reflexivity|].
  destruct ev; simpl; rewrite IH; reflexivity.
Qed.



(** [n] timeouts from pass [k] on, then a success: the loop returns the
    entry after [n + 1] attempts, having paused 5 seconds after each
    failure and 1 second after the success. *)
Lemma retry_loop_timeouts_then_success (w : World) (url : string) (c : Compliance) :
  forall n k fuel,
    (forall i, i < n -> exists msg,
        checker w (k + i) = Raise (Error msg) /\ indicates_timeout msg = true) ->
    checker w (k + n) = Ret c ->
    n < fuel ->
    exists t,
      retry_loop fuel w url k =
        (Returned (Some (extend_entry url
           (repository c, license c, registry c, citation c, checklist c))), t)
      /\ attempts t = S n
      /\ sleeps t = repeat 5%Z n ++ [1%Z].
Proof.
  induction n as [|n IH]; intros k fuel Hfail Hok Hfuel.
  - destruct fuel as [|fuel]; [lia|]. simpl.
    unfold get_howfairis_compliance. rewrite Nat.add_0_r in Hok. rewrite Hok.
    eexists; split; [reflexivity|]. split; reflexivity.
  - destruct fuel as [|fuel]; [lia|]. simpl.
    destruct (Hfail 0) as [msg [Hmsg Hkind]]; [lia|].
    rewrite Nat.add_0_r in Hmsg.
    unfold get_howfairis_compliance. rewrite Hmsg. simpl.
    unfold indicates_timeout in Hkind.
    apply andb_true_iff in Hkind. destruct Hkind as [Hnd Hto].
    apply negb_true_iff in Hnd. rewrite Hnd, Hto.
    destruct (IH (S k) fuel) as [t [Hrun [Hatt Hsl]]].
    + intros i Hi. destruct (Hfail (S i)) as [m Hm]; [lia|].
      exists m. replace (S k + i) with (k + S i) by lia. exact Hm.
    + replace (S k + n) with (k + S n) by lia. exact Hok.
    + lia.
    + rewrite Hrun. unfold after. simpl.
      eexists; split; [reflexivity|]. split.
      * unfold attempts in *. simpl. f_equal. exact Hatt.
      * simpl. rewrite Hsl. reflexivity.
Qed.



End RetryLoop.

(** ** Claims about [parse_repo] *)

Section ParseRepo.

Import Howfairis.

(** The entry built from a URL and the five flags. *)
Lemma extend_entry_eq (url : string) (c : Compliance) :
  extend_entry url (repository c, license c, registry c, citation c, checklist c)
  = [VStr url; VBool (repository c); VBool (license c); VBool (registry c);
     VBool (citation c); VBool (checklist c)].
Proof. reflexivity. Qed.

Lemma retry_loop_entry (w : World) (url : string) :
  forall fuel k e t,
    retry_loop fuel w url k = (Returned (Some e), t) ->
    exists c j,
      checker w j = Ret c
      /\ e = [VStr url; VBool (repository c); VBool (license c);
              VBool (registry c); VBool (citation c); VBool (checklist c)].
Proof.
  induction fuel as [|fuel IH]; intros k e t Hrun; simpl in Hrun.
  - discriminate.
  - unfold get_howfairis_compliance in Hrun.
    destruct (checker w k) as [c|err] eqn:Hk.
    + inversion Hrun; subst. exists c, k. split; [exact Hk|reflexivity].
    + destruct (Py.contains default_branch_message (str err)); [discriminate|].
      destruct (Py.contains timeout_message (str err)).
      * destruct (retry_loop fuel w url (S k)) as [r' t'] eqn:Hrec.
        unfold after in Hrun. simpl in Hrun. inversion Hrun; subst.
        exact (IH _ _ _ Hrec).
      * destruct (rate_reset w k) as [reset|e']; [|discriminate].
        destruct (sleep (reset - clock w k + 2)) as [ev|e']; [|discriminate].
        destruct (retry_loop fuel w url (S k)) as [r' t'] eqn:Hrec.
        unfold after in Hrun. simpl in Hrun. inversion Hrun; subst.
        exact (IH _ _ _ Hrec).
Qed.

Lemma main_loop_rows (fuel : nat) (good : string -> Prop) :
  forall rows counter total acc es t,
    main_loop fuel rows counter total acc = (Returned es, t) ->
    (forall url w, In (url, w) rows -> good url) ->
    Forall (fun e => exists url, good url /\ row_of url e) acc ->
    Forall (fun e => exists url, good url /\ row_of url e) es.
Proof.
  induction rows as [|[url w] rows IH]; intros counter total acc es t Hrun Hgood Hacc.
  - simpl in Hrun. inversion Hrun; subst. exact Hacc.
  - simpl in Hrun.
    destruct (parse_repo fuel w url) as [[result|e|] t0] eqn:Hrow; try discriminate.
    destruct (main_loop fuel rows (S counter) total
                (match result with Some e => acc ++ [e] | None => acc end))
      as [r' t'] eqn:Hrest.
    unfold after in Hrun. simpl in Hrun. inversion Hrun; subst.
    eapply IH; [exact Hrest| |].
    + intros u w' Hin. apply (Hgood u w'). right. exact Hin.
    + destruct result as [e|]; [|exact Hacc].
      apply Forall_app. split; [exact Hacc|].
      constructor; [|constructor].
      exists url. split; [apply (Hgood url w); left; reflexivity|].
      unfold parse_repo in Hrow.
      destruct (negb (is_supported_repo url)); [discriminate|].
      destruct (retry_loop_entry _ _ _ _ _ _ Hrow) as [c [j [_ He]]].
      exists c. exact He.
Qed.

End ParseRepo.

(** C3.  When the first attempt for a supported URL fails with a message
    that contains "Something went wrong asking the repo for its default
    branch", [parse_repo] returns [None] (the row is skipped) from that
    first pass: one attempt, no pause, no second attempt, whatever the
    later answers of the host would have been. *)
Theorem default_branch_error_skips_without_retry :
  forall (w : Howfairis.World) (url msg : string) (fuel : nat),
    Howfairis.is_supported_repo url = true ->
    Howfairis.checker w 0 = Raise (Howfairis.Error msg) ->
    Py.contains Howfairis.default_branch_message msg = true ->
    Howfairis.parse_repo (S fuel) w url
    = (Returned None,
       [Howfairis.CallChecker url; Howfairis.PrintError url msg;
        Howfairis.PrintSkipping])
    /\ Howfairis.attempts (snd (Howfairis.parse_repo (S fuel) w url)) = 1
    /\ Howfairis.sleeps (snd (Howfairis.parse_repo (S fuel) w url)) = [].
Proof.
  intros w url msg fuel Hsup Hfail Hmsg.
  assert (Hrun : Howfairis.parse_repo (S fuel) w url
                 = (Returned None,
                    [Howfairis.CallChecker url; Howfairis.PrintError url msg;
                     Howfairis.PrintSkipping])).
  { unfold Howfairis.parse_repo. rewrite Hsup. simpl.
    unfold Howfairis.get_howfairis_compliance. rewrite Hfail. simpl.
    rewrite Hmsg. reflexivity. }
  rewrite Hrun. repeat split; reflexivity.
Qed.

Lemma default_branch_error_skips_without_retry_witness :
  Howfairis.parse_repo 3 Samples.no_default_branch Samples.repo_url
  = (Returned None,
     [Howfairis.CallChecker Samples.repo_url;
      Howfairis.PrintError Samples.repo_url
        "Something went wrong asking the repo for its default branch.";
      Howfairis.PrintSkipping]).
Proof.
  apply (default_branch_error_skips_without_retry
           Samples.no_default_branch Samples.repo_url
           "Something went wrong asking the repo for its default branch." 2);
    reflexivity.
Defined.

(** C7, as stated, fails: the handler recognises a timeout by the literal
    "TimeoutError" alone.  After two failures with the message of a read
    timeout the third attempt succeeds, but the handler has taken the
    quota path twice: two rate-limit queries and two sleeps of 3602
    seconds instead of the short fixed delay.  When the rate-limit query
    fails as well, no payload is returned at all; and a timeout message
    that also holds the default-branch phrase ends the row at the first
    attempt. *)
Lemma timeout_worded_otherwise_is_not_retried_after_5_seconds :
  Howfairis.indicates_timeout Samples.read_timed_out = false
  /\ Howfairis.sleeps
       (snd (Howfairis.parse_repo 5
               (Samples.failing_then_ok 2 Samples.read_timed_out)
               Samples.repo_url))
     = [3602%Z; 3602%Z; 1%Z]
  /\ Howfairis.rate_limit_queries
       (snd (Howfairis.parse_repo 5
               (Samples.failing_then_ok 2 Samples.read_timed_out)
               Samples.repo_url))
     = 2
  /\ fst (Howfairis.parse_repo 5
            (Howfairis.mkWorld
               (fun k => if (k <? 2)%nat
                         then Raise (Howfairis.Error Samples.read_timed_out)
                         else Ret Samples.flags)
               (fun _ => Raise (Howfairis.Error "Connection refused"))
               (fun _ => 1700000000%Z))
            Samples.repo_url)
     = Raised (Howfairis.Error "Connection refused")
  /\ fst (Howfairis.parse_repo 5
            (Samples.failing_then_ok 2
               "TimeoutError: Something went wrong asking the repo for its default branch")
            Samples.repo_url)
     = Returned None.
Proof. repeat split. Qed.

(** C7, amended.  For every [N], when the first [N] attempts for a
    supported URL fail with a message that contains the literal
    "TimeoutError" and not the default-branch phrase, and attempt [N + 1]
    succeeds, [parse_repo] returns the entry of that success after exactly
    [N + 1] attempts; it sleeps a fixed 5 seconds after each of the [N]
    failures (and 1 second after the success). *)
Theorem timeout_error_messages_then_success_take_N_plus_1_attempts :
  forall (N : nat) (w : Howfairis.World) (url : string)
         (c : Howfairis.Compliance) (fuel : nat),
    Howfairis.is_supported_repo url = true ->
    (forall i, i < N -> exists msg,
        Howfairis.checker w i = Raise (Howfairis.Error msg)
        /\ Py.contains "TimeoutError" msg = true
        /\ Py.contains
             "Something went wrong asking the repo for its default branch" msg
           = false) ->
    Howfairis.checker w N = Ret c ->
    N < fuel ->
    exists t,
      Howfairis.parse_repo fuel w url
      = (Returned (Some [Howfairis.VStr url;
                         Howfairis.VBool (Howfairis.repository c);
                         Howfairis.VBool (Howfairis.license c);
                         Howfairis.VBool (Howfairis.registry c);
                         Howfairis.VBool (Howfairis.citation c);
                         Howfairis.VBool (Howfairis.checklist c)]), t)
      /\ Howfairis.attempts t = S N
      /\ Howfairis.sleeps t = repeat 5%Z N ++ [1%Z].
Proof.
  intros N w url c fuel Hsup Hfail Hok Hfuel.
  unfold Howfairis.parse_repo. rewrite Hsup. simpl.
  destruct (retry_loop_timeouts_then_success w url c N 0 fuel)
    as [t [Hrun Hrest]]; try assumption.
  - intros i Hi. destruct (Hfail i Hi) as [msg [Hmsg [Hto Hdb]]].
    exists msg. split; [exact Hmsg|].
    unfold Howfairis.indicates_timeout, Howfairis.default_branch_message,
      Howfairis.timeout_message.
    rewrite Hto, Hdb. reflexivity.
  - exists t. rewrite Hrun. split; [reflexivity|exact Hrest].
Qed.

Lemma timeout_error_messages_then_success_take_N_plus_1_attempts_witness :
  exists t,
    Howfairis.parse_repo 10
      (Samples.failing_then_ok 2 "TimeoutError: timed out") Samples.repo_url
    = (Returned (Some [Howfairis.VStr Samples.repo_url;
                       Howfairis.VBool true; Howfairis.VBool true;
                       Howfairis.VBool false; Howfairis.VBool true;
                       Howfairis.VBool false]), t)
    /\ Howfairis.attempts t = 3
    /\ Howfairis.sleeps t = [5%Z; 5%Z; 1%Z].
Proof.
  apply (timeout_error_messages_then_success_take_N_plus_1_attempts 2
           (Samples.failing_then_ok 2 "TimeoutError: timed out")
           Samples.repo_url Samples.flags 10).
  - reflexivity.
  - intros i Hi. exists "TimeoutError: timed out".
    destruct i as [|[|i]]; [repeat split|repeat split|lia].
  - reflexivity.
  - lia.
Defined.

(** C10.  Whenever [parse_repo] returns a result other than [None], the
    result is a list of exactly six elements: the input URL, unchanged,
    then the five flags of a successful check in the order repository,
    license, registry, citation, checklist.  Hence every row that the
    main loop appends to the result set is such a list for the URL of one
    of the input rows. *)
Theorem parse_repo_result_is_url_then_five_flags :
  (forall (fuel : nat) (w : Howfairis.World) (url : string)
          (e : Howfairis.entry) (t : Howfairis.trace),
      Howfairis.parse_repo fuel w url = (Returned (Some e), t) ->
      List.length e = 6
      /\ nth_error e 0 = Some (Howfairis.VStr url)
      /\ exists c k,
           Howfairis.checker w k = Ret c
           /\ e = [Howfairis.VStr url;
                   Howfairis.VBool (Howfairis.repository c);
                   Howfairis.VBool (Howfairis.license c);
                   Howfairis.VBool (Howfairis.registry c);
                   Howfairis.VBool (Howfairis.citation c);
                   Howfairis.VBool (Howfairis.checklist c)])
  /\ (forall (fuel : nat) (rows : list (string * Howfairis.World))
             (es : list Howfairis.entry) (t : Howfairis.trace),
         Howfairis.main fuel rows = (Returned es, t) ->
         Forall (fun e => exists url,
                     In url (map fst rows) /\ Howfairis.row_of url e) es).
Proof.
  split.
  - intros fuel w url e t Hrun.
    unfold Howfairis.parse_repo in Hrun.
    destruct (negb (Howfairis.is_supported_repo url)); [discriminate|].
    destruct (retry_loop_entry _ _ _ _ _ _ Hrun) as [c [k [Hk He]]].
    subst e. repeat split; try reflexivity.
    exists c, k. split; [exact Hk|reflexivity].
  - intros fuel rows es t Hrun. unfold Howfairis.main in Hrun.
    eapply main_loop_rows; [exact Hrun| |constructor].
    intros url w Hin. apply in_map_iff. exists (url, w). split; [reflexivity|exact Hin].
Qed.

Lemma parse_repo_result_is_url_then_five_flags_witness :
  List.length
    [Howfairis.VStr Samples.repo_url;
     Howfairis.VBool true; Howfairis.VBool true; Howfairis.VBool false;
     Howfairis.VBool true; Howfairis.VBool false] = 6
  /\ Forall (fun e => exists url,
                 In url [Samples.repo_url; "https://example.org/x"; Samples.repo_url]
                 /\ Howfairis.row_of url e)
       [[Howfairis.VStr Samples.repo_url;
         Howfairis.VBool true; Howfairis.VBool true; Howfairis.VBool false;
         Howfairis.VBool true; Howfairis.VBool false]].
Proof.
  split.
  - apply (proj1 parse_repo_result_is_url_then_five_flags 5
             (Samples.failing_then_ok 1 "TimeoutError") Samples.repo_url _
             [Howfairis.CallChecker Samples.repo_url;
              Howfairis.PrintError Samples.repo_url "TimeoutError";
              Howfairis.Sleep 5;
              Howfairis.CallChecker Samples.repo_url;
              Howfairis.PrintEntry
                [Howfairis.VStr Samples.repo_url;
                 Howfairis.VBool true; Howfairis.VBool true;
                 Howfairis.VBool false; Howfairis.VBool true;
                 Howfairis.VBool false];
              Howfairis.Sleep 1]).
    reflexivity.
  - apply (proj2 parse_repo_result_is_url_then_five_flags 5
             [(Samples.repo_url, Samples.failing_then_ok 1 "TimeoutError");
              ("https://example.org/x", Samples.always_timeout);
              (Samples.repo_url, Samples.no_default_branch)]
             _
             (snd (Howfairis.main 5
                [(Samples.repo_url, Samples.failing_then_ok 1 "TimeoutError");
                 ("https://example.org/x", Samples.always_timeout);
                 (Samples.repo_url, Samples.no_default_branch)]))).
    reflexivity.
Defined.





(** C5 (compliance path).  The quota is used up and the rate-limit query
    fails too: the handler of [parse_repo] neither sleeps nor retries; the
    exception of the query leaves [parse_repo] after one attempt. *)
Theorem parse_repo_raises_when_rate_limit_query_fails :
  Howfairis.parse_repo 5 Samples.rate_limit_down Samples.repo_url
  = (Raised (Howfairis.Error "Connection refused"),
     [Howfairis.CallChecker Samples.repo_url;
      Howfairis.PrintError Samples.repo_url
        "403 Client Error: rate limit exceeded";
      Howfairis.CallRateLimit])
  /\ Howfairis.sleeps
       (snd (Howfairis.parse_repo 5 Samples.rate_limit_down Samples.repo_url))
     = [].
Proof. split; reflexivity. Qed.

(** ** Strings *)

Section Strings.

Lemma has_char_app (c : ascii) (s1 s2 : string) :
  Py.has_char c (s1 ++ s2) = Py.has_char c s1 || Py.has_char c s2.
Proof.
  induction s1 as [|a s1 IH]; simpl; [reflexivity|].
  rewrite IH. apply orb_assoc.
Qed.

Lemma replace_removes (old new : ascii) (s : string) :
  old <> new -> Py.has_char old (Py.replace old new s) = false.
Proof.
  intros Hne. induction s as [|a s IH]; simpl; [reflexivity|].
  rewrite IH, orb_false_r.
  destruct (Ascii.eqb a old) eqn:Ha; [|exact Ha].
  apply Ascii.eqb_neq. congruence.
Qed.

Lemma replace_keeps_absent (c old new : ascii) (s : string) :
  c <> new -> Py.has_char c s = false ->
  Py.has_char c (Py.replace old new s) = false.
Proof.
  intros Hne. induction s as [|a s IH]; simpl; [reflexivity|].
  intros Habs. apply orb_false_iff in Habs. destruct Habs as [Ha Hs].
  rewrite (IH Hs), orb_false_r.
  destruct (Ascii.eqb a old); [|exact Ha].
  apply Ascii.eqb_neq. congruence.
Qed.

Lemma replace_absent (old new : ascii) (s : string) :
  Py.has_char old s = false -> Py.replace old new s = s.
Proof.
  induction s as [|a s IH]; simpl; [reflexivity|].
  intros Habs. apply orb_false_iff in Habs. destruct Habs as [Ha Hs].
  rewrite Ha, (IH Hs). reflexivity.
Qed.

(** A sanitized text holds neither a comma nor a semicolon. *)
Lemma sanitize_clean (s : string) :
  Py.has_char "," (Readme.sanitize s) = false
  /\ Py.has_char ";" (Readme.sanitize s) = false.
Proof.
  unfold Readme.sanitize. split.
  - apply replace_keeps_absent; [discriminate|].
    apply replace_removes. discriminate.
  - apply replace_removes. discriminate.
Qed.

(** Sanitizing changes nothing in a text without comma and semicolon. *)
Lemma sanitize_id (s : string) :
  Py.has_char "," s = false -> Py.has_char ";" s = false ->
  Readme.sanitize s = s.
Proof.
  intros Hc Hs. unfold Readme.sanitize.
  rewrite (replace_absent "," " " s Hc). apply replace_absent. exact Hs.
Qed.

Lemma wrap_clean (s : string) :
  Py.has_char "," s = false -> Py.has_char ";" s = false ->
  Py.has_char "," (Readme.wrap s) = false
  /\ Py.has_char ";" (Readme.wrap s) = false.
Proof.
  intros Hc Hs. unfold Readme.wrap.
  rewrite !has_char_app, Hc, Hs. split; reflexivity.
Qed.

(** *** [strip] and [split] *)

Lemma split_not_nil (c : ascii) (s : string) : Py.split c s <> [].
Proof.
  destruct s as [|a s]; simpl; [discriminate|].
  destruct (Ascii.eqb a c); [discriminate|].
  destruct (Py.split c s); discriminate.
Qed.

(** The first segment is empty only for the empty string and for a
    string that begins with the separator. *)
Lemma split_head_empty (c : ascii) (s : string) (segs : list string) :
  Py.split c s = EmptyString :: segs ->
  s = EmptyString \/ exists rest, s = String c rest.
Proof.
  destruct s as [|a s]; simpl; [left; reflexivity|].
  destruct (Ascii.eqb a c) eqn:Ha.
  - apply Ascii.eqb_eq in Ha. subst a. right. exists s. reflexivity.
  - destruct (Py.split c s); discriminate.
Qed.

Lemma lstrip_head (c : ascii) (s rest : string) :
  Py.lstrip c s <> String c rest.
Proof.
  induction s as [|a s IH]; simpl; [discriminate|].
  destruct (Ascii.eqb a c) eqn:Ha; [exact IH|].
  intros Heq. inversion Heq; subst. rewrite Ascii.eqb_refl in Ha. discriminate.
Qed.

Lemma rstrip_head (c : ascii) (s rest : string) :
  (forall r, s <> String c r) -> Py.rstrip c s <> String c rest.
Proof.
  destruct s as [|a s]; simpl; [discriminate|].
  intros Hhead.
  assert (Ha : a <> c) by (intros ->; apply (Hhead s); reflexivity).
  destruct (Py.rstrip c s).
  - destruct (Ascii.eqb a c); [discriminate|]. congruence.
  - congruence.
Qed.

Lemma strip_head (c : ascii) (s rest : string) :
  Py.strip c s <> String c rest.
Proof.
  unfold Py.strip. apply rstrip_head. intros r. apply lstrip_head.
Qed.

(** The empty segments aside, stripping does not change the segments. *)
Lemma split_lstrip (c : ascii) (s : string) :
  filter Py.truthy (Py.split c (Py.lstrip c s)) = filter Py.truthy (Py.split c s).
Proof.
  induction s as [|a s IH]; [reflexivity|].
  simpl Py.lstrip. destruct (Ascii.eqb a c) eqn:Ha; [|reflexivity].
  rewrite IH. simpl. rewrite Ha. reflexivity.
Qed.

(** Stripping on the right only removes empty segments at the end. *)
Lemma split_rstrip_repeat (c : ascii) (s : string) :
  exists k,
    Py.split c s = Py.split c (Py.rstrip c s) ++ repeat EmptyString k.
Proof.
  induction s as [|a s [k IH]]; [exists 0; reflexivity|].
  simpl Py.rstrip.
  destruct (Py.rstrip c s) as [|b kept] eqn:Hkept.
  - simpl in IH. destruct (Ascii.eqb a c) eqn:Ha.
    + exists (S k). simpl. rewrite Ha, IH. reflexivity.
    + exists k. simpl. rewrite Ha, IH. reflexivity.
  - remember (String b kept) as r.
    exists k. simpl. rewrite IH.
    destruct (Ascii.eqb a c); [reflexivity|].
    destruct (Py.split c r) as [|seg segs] eqn:Hr;
      [exfalso; exact (split_not_nil c r Hr)|reflexivity].
Qed.

Lemma filter_truthy_repeat (l : list string) (k : nat) :
  filter Py.truthy (l ++ repeat EmptyString k) = filter Py.truthy l.
Proof.
  rewrite filter_app.
  assert (Hk : filter Py.truthy (repeat EmptyString k) = []).
  { induction k as [|k IH]; [reflexivity|exact IH]. }
  rewrite Hk. apply app_nil_r.
Qed.

Lemma split_rstrip (c : ascii) (s : string) :
  filter Py.truthy (Py.split c (Py.rstrip c s)) = filter Py.truthy (Py.split c s).
Proof.
  destruct (split_rstrip_repeat c s) as [k Hk].
  rewrite Hk, filter_truthy_repeat. reflexivity.
Qed.

(** The non-empty segments of a path are those of the stripped path. *)
Lemma split_strip (c : ascii) (s : string) :
  filter Py.truthy (Py.split c (Py.strip c s)) = filter Py.truthy (Py.split c s).
Proof.
  unfold Py.strip. rewrite split_rstrip. apply split_lstrip.
Qed.

(** With two segments or more, the first segment of a stripped path is
    not empty. *)
Lemma strip_split_first (c : ascii) (s first second : string) (rest : list string) :
  Py.split c (Py.strip c s) = first :: second :: rest ->
  first <> EmptyString.
Proof.
  intros Hsplit Hfirst. subst first.
  destruct (split_head_empty c _ _ Hsplit) as [Hempty|[r Hr]].
  - rewrite Hempty in Hsplit. discriminate.
  - exact (strip_head c s r Hr).
Qed.

End Strings.

(** ** The rate limiter *)

Section RateLimiter.

Import Readme.

Lemma max0_spec (x : Q) : (0 <= max0 x)%Q /\ (x <= max0 x)%Q.
Proof.
  unfold max0. destruct (Qle_bool x 0) eqn:Hx.
  - apply Qle_bool_iff in Hx. split; lra.
  - assert (~ (x <= 0)%Q) by (rewrite <- Qle_bool_iff; congruence).
    split; lra.
Qed.

(** What [check_rate_limit] sleeps, by the answer to its query. *)
Lemma check_rate_limit_slept (n : Net) :
  match rate_limit n with
  | Ret rate =>
      if (remaining rate =? 0)%Z
      then (slept (check_rate_limit n)
            == max0 (inject_Z (reset rate) - now_check n) + 1)%Q
      else (slept (check_rate_limit n) == 0)%Q
  | Raise _ => (slept (check_rate_limit n) == twenty_minutes)%Q
  end.
Proof.
  unfold check_rate_limit.
  destruct (rate_limit n) as [rate|e].
  - destruct (remaining rate =? 0)%Z; simpl; lra.
  - simpl. lra.
Qed.

(** What [handle_rate_limit] sleeps when the response counts as true. *)
Lemma handle_rate_limit_slept (r : Response) (now : Q) :
  ok r = true ->
  if (header_int (ratelimit_remaining r) =? 0)%Z
  then (slept (handle_rate_limit (Some r) now)
        == max0 (inject_Z (header_int (ratelimit_reset r)) - now) + 1)%Q
  else (slept (handle_rate_limit (Some r) now) == 0)%Q.
Proof.
  intros Hok. unfold handle_rate_limit. rewrite Hok.
  destruct (header_int (ratelimit_remaining r) =? 0)%Z; simpl; lra.
Qed.

(** When the rate-limit query raises, [check_rate_limit] catches the
    exception and sleeps twenty minutes. *)
Lemma check_rate_limit_fallback (n : Net) (e : exn) :
  rate_limit n = Raise e ->
  check_rate_limit n = [CallRateLimit; Print RateCheckFailed; Sleep twenty_minutes].
Proof.
  intros Hq. unfold check_rate_limit. rewrite Hq. reflexivity.
Qed.

End RateLimiter.

(** X21.  With quota left ([remaining > 0]) the check made before a
    listing request does not sleep at all.  With [remaining = 0] it sleeps
    [max(0, reset - now) + 1] seconds: a positive time, at least
    [reset - now] plus a margin of one second. *)
Theorem check_rate_limit_wait :
  forall (n : Readme.Net) (rate : Readme.Quota),
    Readme.rate_limit n = Ret rate ->
    ((0 < Readme.remaining rate)%Z ->
       (Readme.slept (Readme.check_rate_limit n) == 0)%Q)
    /\ (Readme.remaining rate = 0%Z ->
          (Readme.slept (Readme.check_rate_limit n)
           == Readme.max0 (inject_Z (Readme.reset rate) - Readme.now_check n) + 1)%Q
          /\ (0 < Readme.slept (Readme.check_rate_limit n))%Q
          /\ ((inject_Z (Readme.reset rate) - Readme.now_check n) + 1
              <= Readme.slept (Readme.check_rate_limit n))%Q).
Proof.
  intros n rate Hq. pose proof (check_rate_limit_slept n) as Hs.
  rewrite Hq in Hs. split.
  - intros Hpos.
    destruct (Readme.remaining rate =? 0)%Z eqn:Hz; [|exact Hs].
    apply Z.eqb_eq in Hz. lia.
  - intros Hzero. rewrite Hzero, Z.eqb_refl in Hs.
    pose proof (max0_spec (inject_Z (Readme.reset rate) - Readme.now_check n))
      as [H0 Hx].
    split; [exact Hs|]. split; lra.
Qed.

Lemma check_rate_limit_wait_witness :
  (Readme.slept (Readme.check_rate_limit (Samples.net_of [])) == 0)%Q
  /\ (0 < Readme.slept (Readme.check_rate_limit Samples.net_used_up))%Q.
Proof.
  split.
  - apply (proj1 (check_rate_limit_wait (Samples.net_of []) Samples.quota_left
                    eq_refl)).
    reflexivity.
  - apply (proj2 (check_rate_limit_wait Samples.net_used_up
                    Samples.quota_used_up eq_refl)).
    reflexivity.
Defined.

(** C4 (failing input).  [handle_rate_limit] is called with the response
    of a 403 only, and such a response counts as false: the branch that
    reads the headers is never taken, and the script sleeps a flat twenty
    minutes whatever the headers say.  With no request left and the reset
    one hour ahead this is less than [reset - now + 1]. *)
Theorem forbidden_response_sleeps_a_flat_twenty_minutes :
  (forall (remaining reset : option Z) (text : string) (now : Q),
      Readme.handle_rate_limit
        (Some (Readme.response 403 remaining reset text)) now
      = [Readme.Print Readme.SleepingTwentyMinutes;
         Readme.Sleep Readme.twenty_minutes])
  /\ Readme.get_content_from_github Samples.net_forbidden "o" "r"
     = (Ret None,
        [Readme.CallRateLimit; Readme.CallGetContent "o" "r";
         Readme.Print Readme.SleepingTwentyMinutes;
         Readme.Sleep (inject_Z 1200)])
  /\ (Readme.slept
        (snd (Readme.get_content_from_github Samples.net_forbidden "o" "r"))
      == inject_Z 1200)%Q
  /\ (Readme.slept
        (snd (Readme.get_content_from_github Samples.net_forbidden "o" "r"))
      < inject_Z 1700003600 - Readme.now_handle Samples.net_forbidden + 1)%Q.
Proof.
  split; [intros remaining reset text now; reflexivity|].
  split; [reflexivity|]. split; reflexivity.
Qed.

(** ** The README fetcher *)

Section ReadmeFetch.

Import Readme.

Context {lib : PyLib}.

(** Whatever text the scan of a listing returns is a sanitized text
    between the two markers. *)
Lemma scan_contents_wrapped (n : Net) :
  forall contents i s t,
    scan_contents n i contents = (Ret (Some s), t) ->
    exists readme_content, s = wrap (sanitize readme_content).
Proof.
  induction contents as [|entry rest IH]; intros i s t Hscan; simpl in Hscan.
  - discriminate.
  - destruct (Py.startswith (Py.lower (name entry)) "readme");
      [|exact (IH _ _ _ Hscan)].
    destruct (download_readme_content n i entry) as [[[rc|]|e] t0].
    + destruct (Py.truthy rc).
      * inversion Hscan; subst. exists rc. reflexivity.
      * destruct (scan_contents n (S i) rest) as [r' t'] eqn:Hrest.
        unfold after in Hscan. simpl in Hscan. inversion Hscan; subst.
        exact (IH _ _ _ Hrest).
    + destruct (scan_contents n (S i) rest) as [r' t'] eqn:Hrest.
      unfold after in Hscan. simpl in Hscan. inversion Hscan; subst.
      exact (IH _ _ _ Hrest).
    + discriminate.
Qed.

Lemma get_readme_content_wrapped (url : string) (n : Net) (s : string) (t : trace) :
  get_readme_content url n = (Ret (Some s), t) ->
  exists readme_content, s = wrap (sanitize readme_content).
Proof.
  unfold get_readme_content. intros Hget.
  destruct (negb (is_github_url url)); [discriminate|].
  destruct (urlparse_path (unquote url)) as [path|e]; [|discriminate].
  destruct (List.length (Py.split "/" (Py.strip "/" path)) <? 2)%nat;
    [discriminate|].
  destruct (get_content_from_github n _ _) as [[[contents|]|e] t0];
    unfold after in Hget; simpl in Hget; try discriminate.
  destruct (scan_contents n 0 contents) as [r' t'] eqn:Hscan.
  simpl in Hget. inversion Hget; subst.
  exact (scan_contents_wrapped n _ _ _ _ Hscan).
Qed.

(** [get_content_from_github] first checks the rate limit and then asks
    for the listing of exactly the repository it was given. *)
Lemma get_content_from_github_calls (n : Net) (owner repo : string) :
  exists t,
    snd (get_content_from_github n owner repo)
    = check_rate_limit n ++ CallGetContent owner repo :: t.
Proof.
  unfold get_content_from_github.
  destruct (get_content n owner repo) as [listing|[response| |msg]].
  - exists []. reflexivity.
  - destruct (status_code response =? 403)%Z; simpl;
      rewrite <- app_assoc; eexists; reflexivity.
  - simpl. rewrite <- app_assoc. eexists; reflexivity.
  - exists []. reflexivity.
Qed.

(** On an accepted URL the fetch goes on with the first two segments of
    the stripped path. *)
Lemma get_readme_content_accepted (url path owner repo : string)
  (rest : list string) (n : Net) :
  is_github_url url = true ->
  urlparse_path (unquote url) = Ret path ->
  Py.split "/" (Py.strip "/" path) = owner :: repo :: rest ->
  get_readme_content url n
  = after [Print (ProcessingRepository owner repo url)]
      match get_content_from_github n owner repo with
      | (Raise e, t) => (Raise e, t)
      | (Ret None, t) => (Ret None, t)
      | (Ret (Some contents), t) => after t (scan_contents n 0 contents)
      end.
Proof.
  intros Hgh Hpath Hparts. unfold get_readme_content.
  rewrite Hgh, Hpath, Hparts. reflexivity.
Qed.

(** The scan stops at the first entry whose name begins with "readme"
    when that entry carries a non-empty inline body. *)
Lemma scan_contents_first_readme (n : Net) (entry : Entry) (post : list Entry)
  (body decoded : string) :
  Py.startswith (Py.lower (name entry)) "readme" = true ->
  content entry = Some body ->
  b64decode_utf8 body = Ret decoded ->
  decoded <> EmptyString ->
  forall pre i,
    (forall e, In e pre -> Py.startswith (Py.lower (name e)) "readme" = false) ->
    scan_contents n i (pre ++ entry :: post)
    = (Ret (Some (wrap (sanitize decoded))), []).
Proof.
  intros Hname Hbody Hdec Hne.
  induction pre as [|e pre IH]; intros i Hpre; simpl.
  - rewrite Hname. unfold download_readme_content. rewrite Hbody, Hdec.
    destruct decoded; [contradiction|reflexivity].
  - rewrite (Hpre e) by (left; reflexivity).
    apply IH. intros e' Hin. apply Hpre. right. exact Hin.
Qed.

End ReadmeFetch.

(** C9.  Whenever [get_readme_content] returns a text (and not [None]),
    the text contains no comma and no semicolon, for every URL, every
    answer of the host and every behaviour of the library functions. *)
Theorem readme_text_has_no_comma_or_semicolon :
  forall (lib : Readme.PyLib) (url : string) (n : Readme.Net)
         (s : string) (t : Readme.trace),
    @Readme.get_readme_content lib url n = (Ret (Some s), t) ->
    Py.has_char "," s = false /\ Py.has_char ";" s = false.
Proof.
  intros lib url n s t Hget.
  destruct (get_readme_content_wrapped url n s t Hget) as [x Hx]. subst s.
  destruct (sanitize_clean x) as [Hc Hs].
  exact (wrap_clean _ Hc Hs).
Qed.

Lemma readme_text_has_no_comma_or_semicolon_witness :
  Py.has_char ","
    ("README_start" ++ Readme.nl ++ "a b" ++ Readme.nl ++ "README_end") = false
  /\ Py.has_char ";"
       ("README_start" ++ Readme.nl ++ "a b" ++ Readme.nl ++ "README_end") = false.
Proof.
  apply (readme_text_has_no_comma_or_semicolon CPython.lib
           "https://github.com/o/r" (Samples.net_of [Samples.readme_inline]) _
           (snd (@Readme.get_readme_content CPython.lib
                   "https://github.com/o/r"
                   (Samples.net_of [Samples.readme_inline])))).
  reflexivity.
Defined.

(** C8, as stated, fails: the body of README.md is the base64 text of
    "a,b"; the text returned holds "a b" between the markers, not the
    decoded text unchanged. *)
Lemma decoded_text_is_not_returned_unchanged :
  CPython.b64decode_utf8 "YSxi" = Ret "a,b"
  /\ fst (@Readme.get_readme_content CPython.lib "https://github.com/o/r"
            (Samples.net_of [Samples.readme_inline]))
     = Ret (Some ("README_start" ++ Readme.nl ++ "a b" ++ Readme.nl ++ "README_end")%string)
  /\ fst (@Readme.get_readme_content CPython.lib "https://github.com/o/r"
            (Samples.net_of [Samples.readme_inline]))
     <> Ret (Some ("README_start" ++ Readme.nl ++ "a,b" ++ Readme.nl ++ "README_end")%string).
Proof.
  split; [reflexivity|]. split; [reflexivity|]. discriminate.
Qed.

(** C8, amended.  Take an accepted URL and a listing whose first entry
    with a name beginning with "readme" (in any letter case) is named
    README.md (in any letter case) and has an inline base64 body that
    decodes to a non-empty text [t].  Then [get_readme_content] returns
    "README_start\n" ++ t' ++ "\nREADME_end", where [t'] is [t] with every
    comma and every semicolon replaced by a space; [t'] is [t] itself when
    [t] holds neither. *)
Theorem readme_md_is_returned_sanitized_between_markers :
  forall (lib : Readme.PyLib) (url path owner repo : string) (rest : list string)
         (n : Readme.Net) (pre post : list Readme.Entry) (entry : Readme.Entry)
         (body t : string),
    Readme.is_github_url url = true ->
    Readme.urlparse_path (Readme.unquote url) = Ret path ->
    Py.split "/" (Py.strip "/" path) = owner :: repo :: rest ->
    Readme.get_content n owner repo = Ret (pre ++ entry :: post) ->
    (forall e, In e pre ->
       Py.startswith (Py.lower (Readme.name e)) "readme" = false) ->
    Py.lower (Readme.name entry) = "readme.md" ->
    Readme.content entry = Some body ->
    Readme.b64decode_utf8 body = Ret t ->
    t <> EmptyString ->
    fst (@Readme.get_readme_content lib url n)
    = Ret (Some ("README_start" ++ Readme.nl
                 ++ Py.replace ";" " " (Py.replace "," " " t)
                 ++ Readme.nl ++ "README_end")%string)
    /\ (Py.has_char "," t = false -> Py.has_char ";" t = false ->
        fst (@Readme.get_readme_content lib url n)
        = Ret (Some ("README_start" ++ Readme.nl ++ t ++ Readme.nl ++ "README_end")%string)).
Proof.
  intros lib url path owner repo rest n pre post entry body t
         Hgh Hpath Hparts Hlist Hpre Hname Hbody Hdec Hne.
  assert (Hget : fst (@Readme.get_readme_content lib url n)
                 = Ret (Some (Readme.wrap (Readme.sanitize t)))).
  { rewrite (get_readme_content_accepted url path owner repo rest n Hgh Hpath Hparts).
    unfold Readme.get_content_from_github. rewrite Hlist.
    rewrite (scan_contents_first_readme n entry post body t); try assumption.
    - reflexivity.
    - rewrite Hname. reflexivity. }
  split; [exact Hget|].
  intros Hc Hs. rewrite Hget, (sanitize_id t Hc Hs). reflexivity.
Qed.

Lemma readme_md_is_returned_sanitized_between_markers_witness :
  fst (@Readme.get_readme_content CPython.lib "https://github.com/o/r"
         (Samples.net_of
            [Samples.license_file; Samples.readme_plain; Samples.readme_inline]))
  = Ret (Some ("README_start" ++ Readme.nl ++ "# Title" ++ Readme.nl ++ "README_end")%string).
Proof.
  apply (readme_md_is_returned_sanitized_between_markers CPython.lib
           "https://github.com/o/r" "/o/r" "o" "r" []
           (Samples.net_of
              [Samples.license_file; Samples.readme_plain; Samples.readme_inline])
           [Samples.license_file] [Samples.readme_inline] Samples.readme_plain
           "IyBUaXRsZQ==" "# Title"); try reflexivity.
  - intros e [He|[]]. subst e. reflexivity.
  - discriminate.
Defined.

(** ** The address parser *)

(** C6, as stated, fails in three ways.  A valid GitLab URL is rejected by
    the README fetcher, the only place that extracts owner and name.  A
    URL whose host is outside the allow-list is accepted, by the prefix
    test of the README fetcher and by the substring test of
    [is_supported_repo], and the host is called for it.  And for a path
    with two adjacent slashes the name is the empty second segment, not
    the second non-empty one. *)
Lemma address_parser_counterexamples :
  @Readme.get_readme_content CPython.lib "https://gitlab.com/owner/repo"
     (Samples.net_of [])
  = (Ret None, [Readme.Print (Readme.InvalidURL "https://gitlab.com/owner/repo")])
  /\ snd (@Readme.get_readme_content CPython.lib
            "https://github.com.example.org/owner/repo" (Samples.net_of []))
     = [Readme.Print (Readme.ProcessingRepository "owner" "repo"
                        "https://github.com.example.org/owner/repo");
        Readme.CallRateLimit; Readme.CallGetContent "owner" "repo"]
  /\ snd (Howfairis.parse_repo 1 (Samples.failing_then_ok 0 EmptyString)
            "https://example.org/mirror/github.com")
     = [Howfairis.CallChecker "https://example.org/mirror/github.com";
        Howfairis.PrintEntry
          [Howfairis.VStr "https://example.org/mirror/github.com";
           Howfairis.VBool true; Howfairis.VBool true; Howfairis.VBool false;
           Howfairis.VBool true; Howfairis.VBool false];
        Howfairis.Sleep 1]
  /\ snd (@Readme.get_readme_content CPython.lib
            "https://github.com/owner//repo" (Samples.net_of []))
     = [Readme.Print (Readme.ProcessingRepository "owner" EmptyString
                        "https://github.com/owner//repo");
        Readme.CallRateLimit; Readme.CallGetContent "owner" EmptyString]
  /\ filter Py.truthy (Py.split "/" "/owner//repo") = ["owner"; "repo"].
Proof. repeat split. Qed.

(** C6, amended.  The README fetcher accepts a URL when it begins with
    "https://github.com" and its percent-decoded path, stripped of
    slashes at both ends and split at "/", has at least two segments.  It
    then asks the host for (owner, name) equal to the first and second of
    these segments; the owner is the first non-empty segment of the
    path, and the name is the second non-empty one unless it is empty
    (two adjacent slashes).  A URL that does not begin with
    "https://github.com" (GitLab included), or whose stripped path has
    fewer than two segments, returns [None] before any network call.  In
    the compliance script a URL that contains neither "github.com" nor
    "gitlab.com" returns [None] before any network call. *)
Theorem address_parser_accepts_and_rejects :
  (forall (lib : Readme.PyLib) (url path owner repo : string)
          (rest : list string) (n : Readme.Net),
      Readme.is_github_url url = true ->
      Readme.urlparse_path (Readme.unquote url) = Ret path ->
      Py.split "/" (Py.strip "/" path) = owner :: repo :: rest ->
      (exists t,
          snd (@Readme.get_readme_content lib url n)
          = Readme.Print (Readme.ProcessingRepository owner repo url)
            :: Readme.check_rate_limit n
            ++ Readme.CallGetContent owner repo :: t)
      /\ owner <> EmptyString
      /\ nth_error (filter Py.truthy (Py.split "/" path)) 0 = Some owner
      /\ (repo <> EmptyString ->
          nth_error (filter Py.truthy (Py.split "/" path)) 1 = Some repo))
  /\ (forall (lib : Readme.PyLib) (url : string) (n : Readme.Net),
        Readme.is_github_url url = false ->
        @Readme.get_readme_content lib url n
        = (Ret None, [Readme.Print (Readme.InvalidURL url)]))
  /\ (forall (lib : Readme.PyLib) (url path : string) (n : Readme.Net),
        Readme.is_github_url url = true ->
        Readme.urlparse_path (Readme.unquote url) = Ret path ->
        List.length (Py.split "/" (Py.strip "/" path)) < 2 ->
        @Readme.get_readme_content lib url n
        = (Ret None, [Readme.Print (Readme.InvalidFormat url)]))
  /\ (forall (fuel : nat) (w : Howfairis.World) (url : string),
        Howfairis.is_supported_repo url = false ->
        Howfairis.parse_repo fuel w url
        = (Returned None, [Howfairis.PrintUnsupported url])).
Proof.
  split; [|split; [|split]].
  - intros lib url path owner repo rest n Hgh Hpath Hparts.
    assert (Howner : owner <> EmptyString)
      by exact (strip_split_first _ _ _ _ _ Hparts).
    pose proof (split_strip "/" path) as Hseg. rewrite Hparts in Hseg.
    split; [|split; [exact Howner|split]].
    + rewrite (get_readme_content_accepted url path owner repo rest n Hgh Hpath Hparts).
      destruct (get_content_from_github_calls n owner repo) as [t Ht].
      destruct (Readme.get_content_from_github n owner repo) as [[[contents|]|e] t0];
        simpl in Ht; subst t0; unfold after; simpl.
      * rewrite <- app_assoc. eexists. reflexivity.
      * eexists. reflexivity.
      * eexists. reflexivity.
    + rewrite <- Hseg. simpl. destruct owner; [contradiction|reflexivity].
    + intros Hrepo. rewrite <- Hseg. simpl.
      destruct owner; [contradiction|]. destruct repo; [contradiction|reflexivity].
  - intros lib url n Hgh. unfold Readme.get_readme_content.
    rewrite Hgh. reflexivity.
  - intros lib url path n Hgh Hpath Hlen. unfold Readme.get_readme_content.
    rewrite Hgh, Hpath. simpl.
    apply Nat.ltb_lt in Hlen. rewrite Hlen. reflexivity.
  - intros fuel w url Hsup. unfold Howfairis.parse_repo.
    rewrite Hsup. reflexivity.
Qed.

Lemma address_parser_accepts_and_rejects_witness :
  (exists t,
      snd (@Readme.get_readme_content CPython.lib
             "https://github.com/fair-software/howfairis/"
             (Samples.net_of [Samples.readme_plain]))
      = Readme.Print (Readme.ProcessingRepository "fair-software" "howfairis"
                        "https://github.com/fair-software/howfairis/")
        :: Readme.check_rate_limit (Samples.net_of [Samples.readme_plain])
        ++ Readme.CallGetContent "fair-software" "howfairis" :: t)
  /\ @Readme.get_readme_content CPython.lib "https://gitlab.com/owner/repo"
       (Samples.net_of [])
     = (Ret None, [Readme.Print (Readme.InvalidURL "https://gitlab.com/owner/repo")])
  /\ @Readme.get_readme_content CPython.lib "https://github.com/owner"
       (Samples.net_of [])
     = (Ret None, [Readme.Print (Readme.InvalidFormat "https://github.com/owner")])
  /\ Howfairis.parse_repo 3 Samples.always_timeout "https://bitbucket.org/o/r"
     = (Returned None, [Howfairis.PrintUnsupported "https://bitbucket.org/o/r"]).
Proof.
  split; [|split; [|split]].
  - apply (proj1 address_parser_accepts_and_rejects CPython.lib
             "https://github.com/fair-software/howfairis/"
             "/fair-software/howfairis/" "fair-software" "howfairis" []
             (Samples.net_of [Samples.readme_plain])); reflexivity.
  - apply (proj1 (proj2 address_parser_accepts_and_rejects) CPython.lib).
    reflexivity.
  - apply (proj1 (proj2 (proj2 address_parser_accepts_and_rejects)) CPython.lib
             "https://github.com/owner" "/owner"); [reflexivity|reflexivity|].
    simpl. lia.
  - apply (proj2 (proj2 (proj2 address_parser_accepts_and_rejects))).
    reflexivity.
Defined.

(** ** The batch *)

(** C1 (failing input).  The README of the first row has no inline body
    and its download link answers 404: [raise_for_status] raises
    [HTTPError], which [download_readme_content] does not catch (it
    catches [Timeout] only).  The exception leaves [get_readme_content]
    and the loop of [process_csv_file]; the second row is never
    processed.  In the compliance script an exception of the rate-limit
    query raised inside the handler of [parse_repo] ends the main loop in
    the same way. *)
Theorem fetch_error_aborts_the_batch :
  @Readme.process_rows CPython.lib
     [("https://github.com/o/r",
       Samples.net_of [Samples.license_file; Samples.readme_linked]);
      ("https://github.com/fair-software/howfairis",
       Samples.net_of [Samples.readme_plain])]
  = (Raise (Readme.HTTPError Samples.not_found),
     [Readme.Print (Readme.ProcessingURL "https://github.com/o/r");
      Readme.Print (Readme.ProcessingRepository "o" "r" "https://github.com/o/r");
      Readme.CallRateLimit;
      Readme.CallGetContent "o" "r";
      Readme.CallDownload "https://raw.githubusercontent.com/o/r/main/README.md"])
  /\ Howfairis.main 5
       [(Samples.repo_url, Samples.rate_limit_down);
        (Samples.repo_url, Samples.failing_then_ok 0 EmptyString)]
     = (Raised (Howfairis.Error "Connection refused"),
        [Howfairis.CallChecker Samples.repo_url;
         Howfairis.PrintError Samples.repo_url
           "403 Client Error: rate limit exceeded";
         Howfairis.CallRateLimit]).
Proof. split; reflexivity. Qed.

(** * Further properties of the scripts *)

(** ** The main loop of howfairis_variables.py *)

Section MainLoop.

Import Howfairis.

#[local] Arguments Nat.modulo : simpl never.

Lemma main_loop_collects (fuel : nat) :
  forall rows counter total acc es t,
    main_loop fuel rows counter total acc = (Returned es, t) ->
    es = acc ++ flat_map (contribution fuel) rows.
Proof.
  induction rows as [|[url w] rows IH]; intros counter total acc es t Hrun.
  - simpl in Hrun. inversion Hrun; subst. symmetry. apply app_nil_r.
  - simpl in Hrun. unfold contribution at 1. simpl.
    destruct (parse_repo fuel w url) as [[result|e|] t0] eqn:Hrow;
      try discriminate.
    destruct (main_loop fuel rows (S counter) total
                (match result with Some e => acc ++ [e] | None => acc end))
      as [r' t'] eqn:Hrest.
    unfold after in Hrun. simpl in Hrun. inversion Hrun; subst.
    rewrite (IH _ _ _ _ _ Hrest). simpl.
    destruct result as [e|]; [rewrite <- app_assoc|]; reflexivity.
Qed.

Lemma flat_map_contribution_length (fuel : nat) (rows : list (string * World)) :
  List.length (flat_map (contribution fuel) rows) <= List.length rows.
Proof.
  induction rows as [|row rows IH]; simpl; [lia|].
  rewrite length_app. unfold contribution at 1.
  destruct (fst (parse_repo fuel (snd row) (fst row))) as [[e|]|e|]; simpl; lia.
Qed.

Lemma progress_app (t1 t2 : trace) : progress (t1 ++ t2) = progress t1 ++ progress t2.
Proof.
  induction t1 as [|ev t1 IH]; simpl; [reflexivity|].
  destruct ev; simpl; rewrite ?IH; reflexivity.
Qed.

Lemma retry_loop_progress (w : World) (url : string) :
  forall fuel k, progress (snd (retry_loop fuel w url k)) = [].
Proof.
  induction fuel as [|fuel IH]; intros k; simpl; [reflexivity|].
  destruct (get_howfairis_compliance w k url) as [c|e]; [reflexivity|].
  destruct (Py.contains default_branch_message (str e)); [reflexivity|].
  destruct (Py.contains timeout_message (str e)).
  - unfold after. simpl. apply IH.
  - destruct (rate_reset w k) as [reset|e']; [|reflexivity].
    unfold sleep. destruct (reset - clock w k + 2 <? 0)%Z; [reflexivity|].
    unfold after. simpl. apply IH.
Qed.

Lemma parse_repo_progress (fuel : nat) (w : World) (url : string) :
  progress (snd (parse_repo fuel w url)) = [].
Proof.
  unfold parse_repo. destruct (negb (is_supported_repo url)); [reflexivity|].
  apply retry_loop_progress.
Qed.

Lemma main_loop_progress (fuel : nat) :
  forall rows counter total acc es t,
    main_loop fuel rows counter total acc = (Returned es, t) ->
    progress t
    = map (fun c => (c, total))
          (filter (fun c => (c mod 10 =? 0)%nat) (seq counter (List.length rows))).
Proof.
  induction rows as [|[url w] rows IH]; intros counter total acc es t Hrun.
  - simpl in Hrun. inversion Hrun; subst. reflexivity.
  - simpl in Hrun.
    pose proof (parse_repo_progress fuel w url) as Hrow.
    destruct (parse_repo fuel w url) as [[result|e|] t0]; try discriminate.
    destruct (main_loop fuel rows (S counter) total
                (match result with Some e => acc ++ [e] | None => acc end))
      as [r' t'] eqn:Hrest.
    unfold after in Hrun. simpl in Hrun. inversion Hrun; subst.
    simpl in Hrow. rewrite !progress_app, Hrow, (IH _ _ _ _ _ Hrest). simpl.
    destruct (counter mod 10 =? 0)%nat; reflexivity.
Qed.

Lemma main_loop_stops (fuel : nat) (url : string) (w : World) (e : exn)
  (post : list (string * World)) :
  fst (parse_repo fuel w url) = Raised e ->
  forall pre counter total acc,
    Forall (fun row => exists r,
                fst (parse_repo fuel (snd row) (fst row)) = Returned r) pre ->
    fst (main_loop fuel (pre ++ (url, w) :: post) counter total acc) = Raised e
    /\ snd (main_loop fuel (pre ++ (url, w) :: post) counter total acc)
       = snd (main_loop fuel (pre ++ [(url, w)]) counter total acc).
Proof.
  intros Hraise. induction pre as [|[u v] pre IH]; intros counter total acc Hpre.
  - simpl. destruct (parse_repo fuel w url) as [[result|e'|] t0];
      simpl in Hraise; try discriminate.
    inversion Hraise; subst. split; reflexivity.
  - inversion Hpre as [|row pre' [r Hr] Hpre']; subst. simpl in Hr. simpl.
    destruct (parse_repo fuel v u) as [[result|e'|] t0];
      simpl in Hr; try discriminate.
    unfold after. simpl.
    destruct (IH (S counter) total
                (match result with Some e0 => acc ++ [e0] | None => acc end) Hpre')
      as [Hfst Hsnd].
    split; [exact Hfst|]. f_equal. exact Hsnd.
Qed.

End MainLoop.

(** X1.  The result set of the main loop holds, in the order of the
    input rows, the results of [parse_repo] that are not [None], and
    nothing else; it is never longer than the input. *)
Theorem main_collects_results_in_row_order :
  forall (fuel : nat) (rows : list (string * Howfairis.World))
         (es : list Howfairis.entry) (t : Howfairis.trace),
    Howfairis.main fuel rows = (Returned es, t) ->
    es = flat_map (Howfairis.contribution fuel) rows
    /\ List.length es <= List.length rows.
Proof.
  intros fuel rows es t Hrun. unfold Howfairis.main in Hrun.
  pose proof (main_loop_collects fuel _ _ _ _ _ _ Hrun) as Hes. simpl in Hes.
  split; [exact Hes|].
  rewrite Hes. apply flat_map_contribution_length.
Qed.

Lemma main_collects_results_in_row_order_witness :
  [[Howfairis.VStr Samples.repo_url;
    Howfairis.VBool true; Howfairis.VBool true; Howfairis.VBool false;
    Howfairis.VBool true; Howfairis.VBool false]]
  = flat_map (Howfairis.contribution 5)
      [("https://example.org/x", Samples.always_timeout);
       (Samples.repo_url, Samples.no_default_branch);
       (Samples.repo_url, Samples.failing_then_ok 1 "TimeoutError")].
Proof.
  apply (main_collects_results_in_row_order 5
           [("https://example.org/x", Samples.always_timeout);
            (Samples.repo_url, Samples.no_default_branch);
            (Samples.repo_url, Samples.failing_then_ok 1 "TimeoutError")]
           _
           (snd (Howfairis.main 5
              [("https://example.org/x", Samples.always_timeout);
               (Samples.repo_url, Samples.no_default_branch);
               (Samples.repo_url, Samples.failing_then_ok 1 "TimeoutError")]))).
  reflexivity.
Defined.

(** X2.  A run of the main loop that reaches its end prints one progress
    line for every row whose index is a multiple of ten, in order, each
    with the number of input rows as the total, and no other progress
    line. *)
Theorem main_prints_progress_every_ten_rows :
  forall (fuel : nat) (rows : list (string * Howfairis.World))
         (es : list Howfairis.entry) (t : Howfairis.trace),
    Howfairis.main fuel rows = (Returned es, t) ->
    Howfairis.progress t
    = map (fun c => (c, List.length rows))
          (filter (fun c => (c mod 10 =? 0)%nat) (seq 0 (List.length rows))).
Proof.
  intros fuel rows es t Hrun. unfold Howfairis.main in Hrun.
  exact (main_loop_progress fuel _ _ _ _ _ _ Hrun).
Qed.

Lemma main_prints_progress_every_ten_rows_witness :
  Howfairis.progress
    (snd (Howfairis.main 1
            (repeat ("https://bitbucket.org/o/r", Samples.always_timeout) 25)))
  = [(0, 25); (10, 25); (20, 25)].
Proof.
  apply (main_prints_progress_every_ten_rows 1
           (repeat ("https://bitbucket.org/o/r", Samples.always_timeout) 25) []).
  reflexivity.
Defined.

(** X3.  When the fetch of a row raises, the main loop ends with that
    exception and the rows behind it are never looked at: what the loop
    did is what it does when the raising row is the last one. *)
Theorem main_loop_stops_at_first_exception :
  forall (fuel : nat) (pre post : list (string * Howfairis.World))
         (url : string) (w : Howfairis.World) (e : Howfairis.exn)
         (counter total : nat) (acc : list Howfairis.entry),
    Forall (fun row => exists r,
                fst (Howfairis.parse_repo fuel (snd row) (fst row)) = Returned r)
           pre ->
    fst (Howfairis.parse_repo fuel w url) = Raised e ->
    fst (Howfairis.main_loop fuel (pre ++ (url, w) :: post) counter total acc)
    = Raised e
    /\ snd (Howfairis.main_loop fuel (pre ++ (url, w) :: post) counter total acc)
       = snd (Howfairis.main_loop fuel (pre ++ [(url, w)]) counter total acc).
Proof.
  intros fuel pre post url w e counter total acc Hpre Hraise.
  exact (main_loop_stops fuel url w e post Hraise pre counter total acc Hpre).
Qed.

Lemma main_loop_stops_at_first_exception_witness :
  fst (Howfairis.main_loop 5
         ([(Samples.repo_url, Samples.failing_then_ok 1 "TimeoutError")]
          ++ (Samples.repo_url, Samples.rate_limit_down)
             :: [(Samples.repo_url, Samples.failing_then_ok 0 "TimeoutError")])
         0 3 [])
  = Raised (Howfairis.Error "Connection refused").
Proof.
  apply (main_loop_stops_at_first_exception 5
           [(Samples.repo_url, Samples.failing_then_ok 1 "TimeoutError")]
           [(Samples.repo_url, Samples.failing_then_ok 0 "TimeoutError")]
           Samples.repo_url Samples.rate_limit_down
           (Howfairis.Error "Connection refused") 0 3 []).
  - constructor; [|constructor]. eexists. reflexivity.
  - reflexivity.
Defined.

(** ** Exceptions and waits of [parse_repo] *)

Section Handler.

Import Howfairis.

Lemma rate_limit_queries_app (t1 t2 : trace) :
  rate_limit_queries (t1 ++ t2)
  = (rate_limit_queries t1 + rate_limit_queries t2)%nat.
Proof.
  unfold rate_limit_queries. rewrite filter_app, length_app. reflexivity.
Qed.

(** An exception that leaves the loop was raised by the handler of some
    pass: by the rate-limit query, or by [time.sleep] on a negative
    number. *)
Lemma retry_loop_raised (w : World) (url : string) :
  forall fuel k e t,
    retry_loop fuel w url k = (Raised e, t) ->
    exists j msg,
      checker w j = Raise (Error msg)
      /\ Py.contains default_branch_message msg = false
      /\ Py.contains timeout_message msg = false
      /\ (rate_reset w j = Raise e
          \/ exists reset,
               rate_reset w j = Ret reset
               /\ (reset - clock w j + 2 < 0)%Z
               /\ e = Error "sleep length must be non-negative").
Proof.
  induction fuel as [|fuel IH]; intros k e t Hrun; simpl in Hrun.
  - discriminate.
  - unfold get_howfairis_compliance in Hrun.
    destruct (checker w k) as [c|[msg]] eqn:Hk; [discriminate|].
    simpl in Hrun.
    destruct (Py.contains default_branch_message msg) eqn:Hdb; [discriminate|].
    destruct (Py.contains timeout_message msg) eqn:Hto.
    + destruct (retry_loop fuel w url (S k)) as [r' t'] eqn:Hrec.
      unfold after in Hrun. simpl in Hrun. inversion Hrun; subst.
      exact (IH _ _ _ Hrec).
    + destruct (rate_reset w k) as [reset|e'] eqn:Hq.
      * unfold sleep in Hrun.
        destruct (reset - clock w k + 2 <? 0)%Z eqn:Hneg.
        -- inversion Hrun; subst. exists k, msg. repeat split; try assumption.
           right. exists reset. repeat split; [assumption|].
           apply Z.ltb_lt. exact Hneg.
        -- destruct (retry_loop fuel w url (S k)) as [r' t'] eqn:Hrec.
           unfold after in Hrun. simpl in Hrun. inversion Hrun; subst.
           exact (IH _ _ _ Hrec).
      * inversion Hrun; subst. exists k, msg. repeat split; try assumption.
        left. exact Hq.
Qed.

(** [n] failures from pass [k] on that are neither a default-branch
    error nor a timeout, each followed by an answered rate-limit query
    whose reset time is at most two seconds old, and then a success. *)
Lemma retry_loop_quota_waits (w : World) (url : string) (c : Compliance)
  (reset : nat -> Z) :
  forall n k fuel,
    (forall i, i < n -> exists msg,
        checker w (k + i) = Raise (Error msg)
        /\ Py.contains default_branch_message msg = false
        /\ Py.contains timeout_message msg = false
        /\ rate_reset w (k + i) = Ret (reset (k + i))
        /\ (0 <= reset (k + i)%nat - clock w (k + i)%nat + 2)%Z) ->
    checker w (k + n) = Ret c ->
    n < fuel ->
    exists t,
      retry_loop fuel w url k =
        (Returned (Some (extend_entry url
           (repository c, license c, registry c, citation c, checklist c))), t)
      /\ attempts t = S n
      /\ rate_limit_queries t = n
      /\ sleeps t
         = map (fun i => (reset i - clock w i + 2)%Z) (seq k n) ++ [1%Z].
Proof.
  induction n as [|n IH]; intros k fuel Hfail Hok Hfuel.
  - destruct fuel as [|fuel]; [lia|]. simpl.
    unfold get_howfairis_compliance. rewrite Nat.add_0_r in Hok. rewrite Hok.
    eexists; split; [reflexivity|]. repeat split; reflexivity.
  - destruct fuel as [|fuel]; [lia|]. simpl.
    destruct (Hfail 0) as [msg [Hmsg [Hdb [Hto [Hq Hpos]]]]]; [lia|].
    rewrite Nat.add_0_r in Hmsg, Hq, Hpos.
    unfold get_howfairis_compliance. rewrite Hmsg. simpl.
    rewrite Hdb, Hto, Hq. unfold sleep.
    replace (reset k - clock w k + 2 <? 0)%Z with false
      by (symmetry; apply Z.ltb_ge; exact Hpos).
    destruct (IH (S k) fuel) as [t [Hrun [Hatt [Hql Hsl]]]].
    + intros i Hi. destruct (Hfail (S i)) as [m Hm]; [lia|].
      exists m. replace (S k + i) with (k + S i) by lia. exact Hm.
    + replace (S k + n) with (k + S n) by lia. exact Hok.
    + lia.
    + rewrite Hrun. unfold after. simpl.
      eexists; split; [reflexivity|]. split; [|split].
      * unfold attempts in *. simpl. f_equal. exact Hatt.
      * unfold rate_limit_queries in *. simpl. f_equal. exact Hql.
      * simpl. rewrite Hsl. reflexivity.
Qed.

End Handler.

(** X4.  [parse_repo], on whatever cell the main loop hands it, raises in
    three cases only.  The cell is not a [str] (an empty cell is the float
    NaN): [is_supported_repo] raises [TypeError] before any attempt.  Or
    some attempt failed with a message that is neither the default-branch
    message nor a "TimeoutError", and then the rate-limit query of the
    handler raised, or [time.sleep] raised [ValueError] for a reset time
    more than two seconds in the past.  An exception of the compliance
    check itself never leaves [parse_repo].  (Reset times are taken in
    the range that [time.sleep] accepts.) *)
Theorem parse_repo_raises_for_a_bad_cell_or_from_its_handler :
  forall (fuel : nat) (w : Howfairis.World) (repo_url : Howfairis.cell)
         (e : Howfairis.exn) (t : Howfairis.trace),
    (forall k reset,
        Howfairis.rate_reset w k = Ret reset ->
        (reset - Howfairis.clock w k + 2 <= Howfairis.sleep_max)%Z) ->
    Howfairis.parse_repo_cell fuel w repo_url = (Raised e, t) ->
    (exists type_name,
        repo_url = Howfairis.NotStr type_name
        /\ e = Howfairis.Error
                 ("argument of type '" ++ type_name ++ "' is not iterable")
        /\ t = [])
    \/ (exists url k msg,
          repo_url = Howfairis.Str url
          /\ Howfairis.checker w k = Raise (Howfairis.Error msg)
          /\ Py.contains Howfairis.default_branch_message msg = false
          /\ Py.contains Howfairis.timeout_message msg = false
          /\ (Howfairis.rate_reset w k = Raise e
              \/ exists reset,
                   Howfairis.rate_reset w k = Ret reset
                   /\ (reset - Howfairis.clock w k + 2 < 0)%Z
                   /\ e = Howfairis.Error "sleep length must be non-negative")).
Proof.
  intros fuel w repo_url e t _ Hrun.
  destruct repo_url as [url|type_name]; simpl in Hrun.
  - right. unfold Howfairis.parse_repo in Hrun.
    destruct (negb (Howfairis.is_supported_repo url)); [discriminate|].
    destruct (retry_loop_raised w url _ _ _ _ Hrun) as [k [msg Hk]].
    exists url, k, msg. split; [reflexivity|exact Hk].
  - left. inversion Hrun; subst. exists type_name. repeat split.
Qed.

Lemma parse_repo_raises_for_a_bad_cell_or_from_its_handler_witness :
  ((exists type_name,
       Howfairis.NotStr "float" = Howfairis.NotStr type_name
       /\ Howfairis.Error "argument of type 'float' is not iterable"
          = Howfairis.Error
              ("argument of type '" ++ type_name ++ "' is not iterable")
       /\ @nil Howfairis.event = [])
   \/ (exists url k msg,
         Howfairis.NotStr "float" = Howfairis.Str url
         /\ Howfairis.checker Samples.always_timeout k
            = Raise (Howfairis.Error msg)
         /\ Py.contains Howfairis.default_branch_message msg = false
         /\ Py.contains Howfairis.timeout_message msg = false
         /\ (Howfairis.rate_reset Samples.always_timeout k
             = Raise (Howfairis.Error "argument of type 'float' is not iterable")
             \/ exists reset,
                  Howfairis.rate_reset Samples.always_timeout k = Ret reset
                  /\ (reset - Howfairis.clock Samples.always_timeout k + 2 < 0)%Z
                  /\ Howfairis.Error "argument of type 'float' is not iterable"
                     = Howfairis.Error "sleep length must be non-negative")))
  /\ ((exists type_name,
         Howfairis.Str Samples.repo_url = Howfairis.NotStr type_name
         /\ Howfairis.Error "Connection refused"
            = Howfairis.Error
                ("argument of type '" ++ type_name ++ "' is not iterable")
         /\ snd (Howfairis.parse_repo 5 Samples.rate_limit_down Samples.repo_url)
            = [])
      \/ (exists url k msg,
            Howfairis.Str Samples.repo_url = Howfairis.Str url
            /\ Howfairis.checker Samples.rate_limit_down k
               = Raise (Howfairis.Error msg)
            /\ Py.contains Howfairis.default_branch_message msg = false
            /\ Py.contains Howfairis.timeout_message msg = false
            /\ (Howfairis.rate_reset Samples.rate_limit_down k
                = Raise (Howfairis.Error "Connection refused")
                \/ exists reset,
                     Howfairis.rate_reset Samples.rate_limit_down k = Ret reset
                     /\ (reset - Howfairis.clock Samples.rate_limit_down k + 2
                         < 0)%Z
                     /\ Howfairis.Error "Connection refused"
                        = Howfairis.Error "sleep length must be non-negative"))).
Proof.
  split.
  - apply (parse_repo_raises_for_a_bad_cell_or_from_its_handler 5
             Samples.always_timeout (Howfairis.NotStr "float")).
    + intros k reset Hreset. simpl in Hreset. inversion Hreset; subst.
      unfold Howfairis.sleep_max. simpl. lia.
    + reflexivity.
  - apply (parse_repo_raises_for_a_bad_cell_or_from_its_handler 5
             Samples.rate_limit_down (Howfairis.Str Samples.repo_url)).
    + intros k reset Hreset. simpl in Hreset. discriminate Hreset.
    + reflexivity.
Defined.

(** X5.  When the first [N] attempts for a supported URL fail with a
    message that is neither the default-branch message nor a timeout, and
    each rate-limit query of the handler is answered with a reset time at
    most two seconds old, [parse_repo] asks for the rate limit once per
    failure, sleeps [reset - now + 2] seconds each time, whatever quota is
    left, and returns the entry of attempt [N + 1]. *)
Theorem other_errors_wait_for_the_quota_reset :
  forall (N : nat) (w : Howfairis.World) (url : string)
         (c : Howfairis.Compliance) (reset : nat -> Z) (fuel : nat),
    Howfairis.is_supported_repo url = true ->
    (forall i, i < N -> exists msg,
        Howfairis.checker w i = Raise (Howfairis.Error msg)
        /\ Py.contains Howfairis.default_branch_message msg = false
        /\ Py.contains Howfairis.timeout_message msg = false
        /\ Howfairis.rate_reset w i = Ret (reset i)
        /\ (0 <= reset i - Howfairis.clock w i + 2)%Z) ->
    Howfairis.checker w N = Ret c ->
    N < fuel ->
    exists t,
      Howfairis.parse_repo fuel w url
      = (Returned (Some [Howfairis.VStr url;
                         Howfairis.VBool (Howfairis.repository c);
                         Howfairis.VBool (Howfairis.license c);
                         Howfairis.VBool (Howfairis.registry c);
                         Howfairis.VBool (Howfairis.citation c);
                         Howfairis.VBool (Howfairis.checklist c)]), t)
      /\ Howfairis.attempts t = S N
      /\ Howfairis.rate_limit_queries t = N
      /\ Howfairis.sleeps t
         = map (fun i => (reset i - Howfairis.clock w i + 2)%Z) (seq 0 N)
           ++ [1%Z].
Proof.
  intros N w url c reset fuel Hsup Hfail Hok Hfuel.
  unfold Howfairis.parse_repo. rewrite Hsup. simpl.
  destruct (retry_loop_quota_waits w url c reset N 0 fuel)
    as [t [Hrun Hrest]]; try assumption.
  exists t. rewrite Hrun. split; [reflexivity|exact Hrest].
Qed.

Lemma other_errors_wait_for_the_quota_reset_witness :
  exists t,
    Howfairis.parse_repo 5 (Samples.quota_then_ok 2) Samples.repo_url
    = (Returned (Some [Howfairis.VStr Samples.repo_url;
                       Howfairis.VBool true; Howfairis.VBool true;
                       Howfairis.VBool false; Howfairis.VBool true;
                       Howfairis.VBool false]), t)
    /\ Howfairis.attempts t = 3
    /\ Howfairis.rate_limit_queries t = 2
    /\ Howfairis.sleeps t = [3602%Z; 3602%Z; 1%Z].
Proof.
  apply (other_errors_wait_for_the_quota_reset 2 (Samples.quota_then_ok 2)
           Samples.repo_url Samples.flags (fun _ => 1700003600%Z) 5).
  - reflexivity.
  - intros i Hi. exists "403 Client Error: rate limit exceeded".
    destruct i as [|[|i]];
      [repeat split; first [reflexivity | simpl; lia]
      |repeat split; first [reflexivity | simpl; lia]
      |lia].
  - reflexivity.
  - lia.
Defined.

(** ** Substring tests *)

Section Substrings.

Lemma prefix_app (p rest : string) : String.prefix p (p ++ rest) = true.
Proof.
  induction p as [|a p IH]; simpl; [destruct rest; reflexivity|].
  destruct (ascii_dec a a) as [_|Hne]; [exact IH|contradiction].
Qed.

Lemma prefix_inv (p : string) :
  forall s, String.prefix p s = true -> exists rest, s = (p ++ rest)%string.
Proof.
  induction p as [|a p IH]; intros s Hp.
  - exists s. reflexivity.
  - destruct s as [|b s]; simpl in Hp; [discriminate|].
    destruct (ascii_dec a b) as [Heq|Hne]; [|discriminate].
    destruct (IH s Hp) as [rest Hrest]. exists rest. subst. reflexivity.
Qed.

Lemma contains_prefix (needle hay : string) :
  String.prefix needle hay = true -> Py.contains needle hay = true.
Proof.
  intros Hp. destruct hay; cbn [Py.contains]; rewrite Hp; reflexivity.
Qed.

Lemma contains_cons (needle hay : string) (a : ascii) :
  Py.contains needle hay = true -> Py.contains needle (String a hay) = true.
Proof.
  intros Hc. cbn [Py.contains]. rewrite Hc. apply orb_true_r.
Qed.

(** A string that occurs anywhere is found. *)
Lemma contains_app (needle before behind : string) :
  Py.contains needle (before ++ needle ++ behind) = true.
Proof.
  induction before as [|a before IH].
  - cbn [append]. apply contains_prefix, prefix_app.
  - cbn [append]. apply contains_cons. exact IH.
Qed.

End Substrings.

(** X6.  [read_input_file] takes a path for a spreadsheet as soon as the
    letters xlsx occur anywhere in it, in a directory name as well as in
    the extension, and reads it with the openpyxl engine; every other path
    is read as CSV with the delimiter [;] and the encoding latin1. *)
Theorem read_input_file_tests_for_xlsx_anywhere :
  (forall before behind : string,
      Howfairis.read_input_file (before ++ "xlsx" ++ behind)
      = Howfairis.ReadExcel (before ++ "xlsx" ++ behind) "openpyxl")
  /\ (forall file_path : string,
        Py.contains "xlsx" file_path = false ->
        Howfairis.read_input_file file_path
        = Howfairis.ReadCsv file_path ";" "latin1").
Proof.
  split.
  - intros before behind. unfold Howfairis.read_input_file.
    rewrite contains_app. reflexivity.
  - intros file_path Hno. unfold Howfairis.read_input_file.
    rewrite Hno. reflexivity.
Qed.

Lemma read_input_file_tests_for_xlsx_anywhere_witness :
  Howfairis.read_input_file "exports_xlsx/repositories_filtered.csv"
  = Howfairis.ReadExcel "exports_xlsx/repositories_filtered.csv" "openpyxl"
  /\ Howfairis.read_input_file "results/repositories_filtered.csv"
     = Howfairis.ReadCsv "results/repositories_filtered.csv" ";" "latin1".
Proof.
  split.
  - exact (proj1 read_input_file_tests_for_xlsx_anywhere
             "exports_" "/repositories_filtered.csv").
  - apply (proj2 read_input_file_tests_for_xlsx_anywhere). reflexivity.
Defined.

(** X7.  Every URL that the README script accepts as a GitHub URL is a
    supported repository for the compliance script; and the compliance
    script supports a URL as soon as one of the two domains occurs
    anywhere in it. *)
Theorem github_urls_are_supported_repos :
  (forall url : string,
      Readme.is_github_url url = true ->
      Howfairis.is_supported_repo url = true)
  /\ (forall (domain before behind : string),
        In domain Howfairis.supported_domains ->
        Howfairis.is_supported_repo (before ++ domain ++ behind) = true).
Proof.
  split.
  - intros url Hgh. unfold Readme.is_github_url, Py.startswith in Hgh.
    destruct (prefix_inv _ _ Hgh) as [rest Hrest]. subst url.
    unfold Howfairis.is_supported_repo. apply existsb_exists.
    exists "github.com". split; [left; reflexivity|].
    exact (contains_app "github.com" "https://" rest).
  - intros domain before behind Hin.
    unfold Howfairis.is_supported_repo. apply existsb_exists.
    exists domain. split; [exact Hin|apply contains_app].
Qed.

Lemma github_urls_are_supported_repos_witness :
  Howfairis.is_supported_repo Samples.repo_url = true
  /\ Howfairis.is_supported_repo
       ("https://example.org/?mirror=" ++ "gitlab.com" ++ "/o/r") = true.
Proof.
  split.
  - apply (proj1 github_urls_are_supported_repos). reflexivity.
  - apply (proj2 github_urls_are_supported_repos). right. left. reflexivity.
Defined.

(** ** Sanitizing and wrapping *)

Section Sanitize.

Import Readme.

Lemma replace_length (old new : ascii) (s : string) :
  String.length (Py.replace old new s) = String.length s.
Proof.
  induction s as [|a s IH]; simpl; [reflexivity|]. rewrite IH. reflexivity.
Qed.

Lemma replace_get (old new : ascii) (s : string) :
  forall i,
    String.get i (Py.replace old new s)
    = option_map (fun c => if Ascii.eqb c old then new else c) (String.get i s).
Proof.
  induction s as [|a s IH]; intros i; simpl; [reflexivity|].
  destruct i as [|i]; [reflexivity|apply IH].
Qed.

Lemma append_length (s1 s2 : string) :
  String.length (s1 ++ s2) = (String.length s1 + String.length s2)%nat.
Proof.
  induction s1 as [|a s1 IH]; simpl; [reflexivity|]. rewrite IH. reflexivity.
Qed.

Lemma substring_skip (before s : string) (m : nat) :
  String.substring (String.length before) m (before ++ s)
  = String.substring 0 m s.
Proof.
  induction before as [|a before IH]; simpl; [reflexivity|exact IH].
Qed.

Lemma substring_front (s behind : string) :
  String.substring 0 (String.length s) (s ++ behind) = s.
Proof.
  induction s as [|a s IH]; simpl.
  - destruct behind; reflexivity.
  - rewrite IH. reflexivity.
Qed.

(** The character that [sanitize] puts in the place of [c]. *)
Lemma sanitize_get (s : string) (i : nat) :
  String.get i (sanitize s)
  = option_map (fun c => if Ascii.eqb c "," || Ascii.eqb c ";" then " "%char else c)
      (String.get i s).
Proof.
  unfold sanitize. rewrite !replace_get.
  destruct (String.get i s) as [c|]; simpl; [|reflexivity].
  destruct (Ascii.eqb c ",") eqn:Hc; simpl; [reflexivity|].
  reflexivity.
Qed.

Lemma sanitize_length (s : string) :
  String.length (sanitize s) = String.length s.
Proof.
  unfold sanitize. rewrite !replace_length. reflexivity.
Qed.

Lemma sanitize_nonempty (s : string) :
  s <> EmptyString -> sanitize s <> EmptyString.
Proof.
  intros Hne Hs. apply Hne.
  pose proof (sanitize_length s) as Hlen. rewrite Hs in Hlen.
  destruct s; [reflexivity|discriminate].
Qed.

Lemma wrap_length (s : string) :
  String.length (wrap s) = (String.length s + 24)%nat.
Proof.
  unfold wrap. rewrite !append_length. simpl. lia.
Qed.

(** The text between the markers can be cut out again. *)
Lemma wrap_payload (s : string) :
  String.substring 13 (String.length s) (wrap s) = s.
Proof.
  unfold wrap.
  change ("README_start" ++ nl ++ s ++ nl ++ "README_end")%string
    with (("README_start" ++ nl) ++ s ++ nl ++ "README_end")%string.
  change 13 with (String.length ("README_start" ++ nl)).
  rewrite substring_skip. apply substring_front.
Qed.

End Sanitize.

(** X8.  [sanitize], the double replace applied to every README, keeps
    the length of the text and every character in its place, except that
    each comma and each semicolon becomes a space; applying it twice
    changes nothing more. *)
Theorem sanitize_only_blanks_commas_and_semicolons :
  forall s : string,
    String.length (Readme.sanitize s) = String.length s
    /\ (forall i,
          String.get i (Readme.sanitize s)
          = option_map
              (fun c => if Ascii.eqb c "," || Ascii.eqb c ";" then " "%char else c)
              (String.get i s))
    /\ Readme.sanitize (Readme.sanitize s) = Readme.sanitize s.
Proof.
  intros s. split; [apply sanitize_length|]. split; [apply sanitize_get|].
  destruct (sanitize_clean s) as [Hc Hs]. apply sanitize_id; assumption.
Qed.

(** ** More on the README fetcher *)

Section ReadmeFetchMore.

Import Readme.

Context {lib : PyLib}.

Lemma truthy_nonempty (s : string) : Py.truthy s = true -> s <> EmptyString.
Proof. destruct s; [discriminate|intros _; discriminate]. Qed.

(** The text that the scan wraps is never empty. *)
Lemma scan_contents_payload (n : Net) :
  forall contents i s t,
    scan_contents n i contents = (Ret (Some s), t) ->
    exists readme_content,
      readme_content <> EmptyString /\ s = wrap (sanitize readme_content).
Proof.
  induction contents as [|entry rest IH]; intros i s t Hscan; simpl in Hscan.
  - discriminate.
  - destruct (Py.startswith (Py.lower (name entry)) "readme");
      [|exact (IH _ _ _ Hscan)].
    destruct (download_readme_content n i entry) as [[[rc|]|e] t0].
    + destruct (Py.truthy rc) eqn:Hrc.
      * inversion Hscan; subst. exists rc.
        split; [exact (truthy_nonempty rc Hrc)|reflexivity].
      * destruct (scan_contents n (S i) rest) as [r' t'] eqn:Hrest.
        unfold after in Hscan. simpl in Hscan. inversion Hscan; subst.
        exact (IH _ _ _ Hrest).
    + destruct (scan_contents n (S i) rest) as [r' t'] eqn:Hrest.
      unfold after in Hscan. simpl in Hscan. inversion Hscan; subst.
      exact (IH _ _ _ Hrest).
    + discriminate.
Qed.

Lemma get_readme_content_payload (url : string) (n : Net) (s : string) (t : trace) :
  get_readme_content url n = (Ret (Some s), t) ->
  is_github_url url = true
  /\ exists readme_content,
       readme_content <> EmptyString /\ s = wrap (sanitize readme_content).
Proof.
  unfold get_readme_content. intros Hget.
  destruct (is_github_url url); [|discriminate]. split; [reflexivity|].
  simpl in Hget.
  destruct (urlparse_path (unquote url)) as [path|e]; [|discriminate].
  destruct (List.length (Py.split "/" (Py.strip "/" path)) <? 2)%nat;
    [discriminate|].
  destruct (get_content_from_github n _ _) as [[[contents|]|e] t0];
    unfold after in Hget; simpl in Hget; try discriminate.
  destruct (scan_contents n 0 contents) as [r' t'] eqn:Hscan.
  simpl in Hget. inversion Hget; subst.
  exact (scan_contents_payload n _ _ _ _ Hscan).
Qed.


Lemma download_calls_app (t1 t2 : trace) :
  download_calls (t1 ++ t2) = (download_calls t1 + download_calls t2)%nat.
Proof.
  unfold download_calls. rewrite filter_app, length_app. reflexivity.
Qed.

Lemma rate_limit_calls_app (t1 t2 : trace) :
  rate_limit_calls (t1 ++ t2) = (rate_limit_calls t1 + rate_limit_calls t2)%nat.
Proof.
  unfold rate_limit_calls. rewrite filter_app, length_app. reflexivity.
Qed.

Lemma listing_calls_app (t1 t2 : trace) :
  listing_calls (t1 ++ t2) = (listing_calls t1 + listing_calls t2)%nat.
Proof.
  unfold listing_calls. rewrite filter_app, length_app. reflexivity.
Qed.

(** One entry costs at most one request, and none when it has an inline
    body; it never asks for the rate limit or for a listing. *)
Lemma download_readme_content_calls (n : Net) (i : nat) (entry : Entry) :
  download_calls (snd (download_readme_content n i entry)) <= 1
  /\ (content entry <> None ->
      download_calls (snd (download_readme_content n i entry)) = 0)
  /\ rate_limit_calls (snd (download_readme_content n i entry)) = 0
  /\ listing_calls (snd (download_readme_content n i entry)) = 0.
Proof.
  unfold download_readme_content.
  destruct (content entry) as [body|].
  - destruct (b64decode_utf8 body); simpl; repeat split; auto.
  - destruct (download_url entry) as [url|];
      [|simpl; repeat split; auto; intros H; contradiction].
    destruct (Py.truthy url);
      [|simpl; repeat split; auto; intros H; contradiction].
    destruct (download n i url) as [response|[r| |msg]].
    + destruct (raise_for_status response); simpl; repeat split; auto;
        intros H; contradiction.
    + simpl; repeat split; auto; intros H; contradiction.
    + simpl; repeat split; auto; intros H; contradiction.
    + simpl; repeat split; auto; intros H; contradiction.
Qed.

Lemma scan_contents_calls (n : Net) :
  forall contents i,
    download_calls (snd (scan_contents n i contents))
    <= List.length (filter readme_named contents)
    /\ ((forall e, In e contents -> readme_named e = true -> content e <> None) ->
        download_calls (snd (scan_contents n i contents)) = 0)
    /\ rate_limit_calls (snd (scan_contents n i contents)) = 0
    /\ listing_calls (snd (scan_contents n i contents)) = 0.
Proof.
  induction contents as [|entry rest IH]; intros i.
  - simpl. repeat split; auto.
  - destruct (IH (S i)) as [IHd [IHi [IHr IHl]]].
    simpl. unfold readme_named at 1 3.
    destruct (Py.startswith (Py.lower (name entry)) "readme") eqn:Hname.
    + destruct (download_readme_content_calls n i entry) as [Hd [Hi [Hr Hl]]].
      assert (Hinline :
                (forall e, In e (entry :: rest) ->
                           readme_named e = true -> content e <> None) ->
                download_calls (snd (download_readme_content n i entry)) = 0
                /\ download_calls (snd (scan_contents n (S i) rest)) = 0).
      { intros Hall. split.
        - apply Hi. apply (Hall entry (or_introl eq_refl)). exact Hname.
        - apply IHi. intros e He. apply Hall. right. exact He. }
      destruct (download_readme_content n i entry) as [[[rc|]|e] t0];
        simpl in Hd, Hi, Hr, Hl, Hinline; unfold trace in *.
      * destruct (Py.truthy rc); unfold after; simpl;
          rewrite ?download_calls_app, ?rate_limit_calls_app, ?listing_calls_app;
          (split; [lia|]);
          (split; [intros Hall; destruct (Hinline Hall) as [Ha Hb];
                   rewrite ?Ha, ?Hb; reflexivity|]);
          (split; [rewrite ?Hr, ?IHr|rewrite ?Hl, ?IHl]; reflexivity).
      * unfold after; simpl;
          rewrite ?download_calls_app, ?rate_limit_calls_app, ?listing_calls_app;
          (split; [lia|]);
          (split; [intros Hall; destruct (Hinline Hall) as [Ha Hb];
                   rewrite ?Ha, ?Hb; reflexivity|]);
          (split; [rewrite ?Hr, ?IHr|rewrite ?Hl, ?IHl]; reflexivity).
      * simpl.
        (split; [lia|]);
          (split; [intros Hall; destruct (Hinline Hall) as [Ha Hb];
                   rewrite ?Ha, ?Hb; reflexivity|]);
          (split; [rewrite ?Hr, ?IHr|rewrite ?Hl, ?IHl]; reflexivity).
    + split; [exact IHd|split; [|split; assumption]].
      intros Hall. apply IHi. intros e He. apply Hall. right. exact He.
Qed.

Lemma check_rate_limit_calls (n : Net) :
  rate_limit_calls (check_rate_limit n) = 1
  /\ listing_calls (check_rate_limit n) = 0
  /\ download_calls (check_rate_limit n) = 0.
Proof.
  unfold check_rate_limit.
  destruct (rate_limit n) as [rate|e];
    [destruct (remaining rate =? 0)%Z|]; repeat split.
Qed.

Lemma handle_rate_limit_calls (response : option Response) (now : Q) :
  rate_limit_calls (handle_rate_limit response now) = 0
  /\ listing_calls (handle_rate_limit response now) = 0
  /\ download_calls (handle_rate_limit response now) = 0.
Proof.
  unfold handle_rate_limit.
  destruct response as [r|]; [|repeat split].
  destruct (ok r); [|repeat split].
  destruct (header_int (ratelimit_remaining r) =? 0)%Z; repeat split.
Qed.

(** One rate-limit query and one listing request, whatever the answer. *)
Lemma get_content_from_github_counts (n : Net) (owner repo : string) :
  rate_limit_calls (snd (get_content_from_github n owner repo)) = 1
  /\ listing_calls (snd (get_content_from_github n owner repo)) = 1
  /\ download_calls (snd (get_content_from_github n owner repo)) = 0.
Proof.
  destruct (check_rate_limit_calls n) as [Hr [Hl Hd]].
  destruct (handle_rate_limit_calls
              (match get_content n owner repo with
               | Raise (HTTPError response) => Some response
               | _ => None
               end) (now_handle n)) as [Hr' [Hl' Hd']].
  unfold get_content_from_github.
  destruct (get_content n owner repo) as [listing|[response| |msg]];
    [| destruct (status_code response =? 403)%Z | |];
    cbn [snd];
    rewrite ?rate_limit_calls_app, ?listing_calls_app, ?download_calls_app;
    rewrite Hr, Hl, Hd, ?Hr', ?Hl', ?Hd'; repeat split.
Qed.

End ReadmeFetchMore.

Section ReadmeFetchRow.

Import Readme.

Context {lib : PyLib}.

(** Per row: at most one rate-limit query and one listing request, and
    as many of the one as of the other. *)
Lemma get_readme_content_counts (url : string) (n : Net) :
  rate_limit_calls (snd (get_readme_content url n)) <= 1
  /\ listing_calls (snd (get_readme_content url n))
     = rate_limit_calls (snd (get_readme_content url n)).
Proof.
  unfold get_readme_content.
  destruct (negb (is_github_url url)); [unfold rate_limit_calls, listing_calls; simpl; split; [lia|reflexivity]|].
  destruct (urlparse_path (unquote url)) as [path|e];
    [|unfold rate_limit_calls, listing_calls; simpl; split; [lia|reflexivity]].
  destruct (List.length (Py.split "/" (Py.strip "/" path)) <? 2)%nat;
    [unfold rate_limit_calls, listing_calls; simpl; split; [lia|reflexivity]|].
  cbv zeta.
  set (owner := nth 0 (Py.split "/" (Py.strip "/" path)) EmptyString).
  set (repo := nth 1 (Py.split "/" (Py.strip "/" path)) EmptyString).
  destruct (get_content_from_github_counts n owner repo) as [Hr [Hl _]].
  destruct (get_content_from_github n owner repo) as [[[contents|]|e] t0];
    cbn [snd] in Hr, Hl; unfold after; cbn [fst snd].
  - destruct (scan_contents_calls n contents 0) as [_ [_ [Hsr Hsl]]].
    unfold trace in *.
    change (Print (ProcessingRepository owner repo url)
            :: t0 ++ snd (scan_contents n 0 contents))
      with ([Print (ProcessingRepository owner repo url)]
            ++ t0 ++ snd (scan_contents n 0 contents)).
    rewrite !rate_limit_calls_app, !listing_calls_app, Hr, Hl, Hsr, Hsl.
    split; [unfold rate_limit_calls; simpl; lia|reflexivity].
  - change (Print (ProcessingRepository owner repo url) :: t0)
      with ([Print (ProcessingRepository owner repo url)] ++ t0).
    rewrite !rate_limit_calls_app, !listing_calls_app, Hr, Hl.
    split; [unfold rate_limit_calls; simpl; lia|reflexivity].
  - change (Print (ProcessingRepository owner repo url) :: t0)
      with ([Print (ProcessingRepository owner repo url)] ++ t0).
    rewrite !rate_limit_calls_app, !listing_calls_app, Hr, Hl.
    split; [unfold rate_limit_calls; simpl; lia|reflexivity].
Qed.

(** The quota and the two clock readings decide how long the script
    sleeps, never what it returns. *)
Lemma scan_contents_quota_free (n : Net) (quota : res exn Quota) (now now' : Q) :
  forall contents i,
    fst (scan_contents (mkNet quota now (get_content n) now' (download n)) i contents)
    = fst (scan_contents n i contents).
Proof.
  induction contents as [|entry rest IH]; intros i; simpl; [reflexivity|].
  destruct (Py.startswith (Py.lower (name entry)) "readme"); [|apply IH].
  unfold download_readme_content. cbn [download].
  destruct (content entry) as [body|].
  - destruct (b64decode_utf8 body) as [decoded|e]; [|reflexivity].
    destruct (Py.truthy decoded); [reflexivity|].
    unfold after. cbn [fst]. apply IH.
  - destruct (download_url entry) as [link|];
      [|unfold after; cbn [fst]; apply IH].
    destruct (Py.truthy link); [|unfold after; cbn [fst]; apply IH].
    destruct (download n i link) as [response|[r| |msg]];
      try reflexivity.
    + destruct (raise_for_status response); [|reflexivity].
      destruct (Py.truthy (text response)); [reflexivity|].
      unfold after. cbn [fst]. apply IH.
    + unfold after. cbn [fst]. apply IH.
Qed.

Lemma get_readme_content_quota_free (url : string) (n : Net)
  (quota : res exn Quota) (now now' : Q) :
  fst (get_readme_content url (mkNet quota now (get_content n) now' (download n)))
  = fst (get_readme_content url n).
Proof.
  unfold get_readme_content.
  destruct (negb (is_github_url url)); [reflexivity|].
  destruct (urlparse_path (unquote url)) as [path|e]; [|reflexivity].
  destruct (List.length (Py.split "/" (Py.strip "/" path)) <? 2)%nat;
    [reflexivity|].
  cbv zeta. unfold get_content_from_github. cbn [get_content].
  destruct (get_content n _ _) as [listing|[response| |msg]];
    unfold after; cbn [fst snd].
  - apply scan_contents_quota_free.
  - destruct (status_code response =? 403)%Z; reflexivity.
  - reflexivity.
  - reflexivity.
Qed.

(** The cells of the batch, row by row. *)
Lemma process_rows_cells :
  forall rows cells t,
    process_rows rows = (Ret cells, t) ->
    Forall2 (fun row cell =>
               (is_github_url (fst row) = false -> cell = None)
               /\ (forall s, cell = Some s ->
                     is_github_url (fst row) = true
                     /\ exists readme_content,
                          readme_content <> EmptyString
                          /\ s = wrap (sanitize readme_content)))
            rows cells.
Proof.
  induction rows as [|[url n] rows IH]; intros cells t Hrun; simpl in Hrun.
  - inversion Hrun; subst. constructor.
  - destruct (is_github_url url) eqn:Hgh.
    + destruct (get_readme_content url n) as [[readme_content|e] t0] eqn:Hget;
        [|discriminate].
      destruct (process_rows rows) as [[cells'|e] t'] eqn:Hrest; [|discriminate].
      inversion Hrun; subst. constructor; [|exact (IH _ _ eq_refl)].
      simpl. rewrite Hgh. split; [discriminate|].
      intros s Hs. split; [reflexivity|].
      destruct readme_content as [s0|]; [|discriminate].
      destruct (Py.truthy s0); [|discriminate].
      inversion Hs; subst.
      exact (proj2 (get_readme_content_payload url n s t0 Hget)).
    + destruct (process_rows rows) as [[cells'|e] t'] eqn:Hrest; [|discriminate].
      inversion Hrun; subst. constructor; [|exact (IH _ _ eq_refl)].
      simpl. split; [reflexivity|discriminate].
Qed.

End ReadmeFetchRow.

(** X9.  A text returned by [get_readme_content] comes from a GitHub URL
    and is a non-empty payload between the two markers: it is 24
    characters longer than the payload, and the payload is what stands
    from position 13 on. *)
Theorem returned_text_is_a_payload_between_markers :
  forall (lib : Readme.PyLib) (url : string) (n : Readme.Net)
         (s : string) (t : Readme.trace),
    @Readme.get_readme_content lib url n = (Ret (Some s), t) ->
    Readme.is_github_url url = true
    /\ exists payload : string,
         payload <> EmptyString
         /\ s = ("README_start" ++ Readme.nl ++ payload ++ Readme.nl
                 ++ "README_end")%string
         /\ String.length s = String.length payload + 24
         /\ String.substring 13 (String.length payload) s = payload.
Proof.
  intros lib url n s t Hget.
  destruct (get_readme_content_payload url n s t Hget) as [Hgh [x [Hx Hs]]].
  split; [exact Hgh|]. exists (Readme.sanitize x). subst s.
  split; [exact (sanitize_nonempty x Hx)|]. split; [reflexivity|].
  split; [apply wrap_length|apply wrap_payload].
Qed.

Lemma returned_text_is_a_payload_between_markers_witness :
  Readme.is_github_url "https://github.com/o/r" = true
  /\ exists payload : string,
       payload <> EmptyString
       /\ ("README_start" ++ Readme.nl ++ "a b" ++ Readme.nl ++ "README_end")%string
          = ("README_start" ++ Readme.nl ++ payload ++ Readme.nl
             ++ "README_end")%string
       /\ String.length
            ("README_start" ++ Readme.nl ++ "a b" ++ Readme.nl ++ "README_end")
          = String.length payload + 24
       /\ String.substring 13 (String.length payload)
            ("README_start" ++ Readme.nl ++ "a b" ++ Readme.nl ++ "README_end")
          = payload.
Proof.
  apply (returned_text_is_a_payload_between_markers CPython.lib
           "https://github.com/o/r" (Samples.net_of [Samples.readme_inline]) _
           (snd (@Readme.get_readme_content CPython.lib
                   "https://github.com/o/r"
                   (Samples.net_of [Samples.readme_inline])))).
  reflexivity.
Defined.

(** X10.  For one row [get_readme_content] asks for the rate limit at most
    once and for the directory listing at most once, the listing request
    always right after a rate-limit check: a failed listing request is
    never repeated. *)
Theorem one_row_makes_at_most_one_listing_request :
  forall (lib : Readme.PyLib) (url : string) (n : Readme.Net),
    Readme.rate_limit_calls (snd (@Readme.get_readme_content lib url n)) <= 1
    /\ Readme.listing_calls (snd (@Readme.get_readme_content lib url n))
       = Readme.rate_limit_calls (snd (@Readme.get_readme_content lib url n)).
Proof.
  intros lib url n. apply get_readme_content_counts.
Qed.



(** X12.  What [get_readme_content] returns does not depend on the quota:
    the answer of the rate-limit query (a failure included) and the two
    clock readings change how long the script sleeps, never the result. *)
Theorem readme_result_does_not_depend_on_the_quota :
  forall (lib : Readme.PyLib) (url : string) (n : Readme.Net)
         (quota : res Readme.exn Readme.Quota) (now now' : Q),
    fst (@Readme.get_readme_content lib url
           (Readme.mkNet quota now (Readme.get_content n) now' (Readme.download n)))
    = fst (@Readme.get_readme_content lib url n).
Proof.
  intros lib url n quota now now'. apply get_readme_content_quota_free.
Qed.

(** X13.  [handle_rate_limit] treats a missing X-RateLimit-Remaining
    header as a used-up quota: for a response that counts as true it then
    sleeps [max(0, reset - now) + 1] seconds, which is one second when the
    reset header is missing too (the clock being past the epoch).  Without
    a response, or with one that counts as false, it sleeps twenty
    minutes whatever the headers say. *)
Theorem handle_rate_limit_defaults :
  (forall (r : Readme.Response) (now : Q),
      Readme.ok r = true ->
      Readme.ratelimit_remaining r = None ->
      (Readme.slept (Readme.handle_rate_limit (Some r) now)
       == Readme.max0 (inject_Z (Readme.header_int (Readme.ratelimit_reset r)) - now)
          + 1)%Q
      /\ (Readme.ratelimit_reset r = None -> (0 <= now)%Q ->
          (Readme.slept (Readme.handle_rate_limit (Some r) now) == 1)%Q))
  /\ (forall (r : Readme.Response) (now : Q),
        Readme.ok r = false ->
        (Readme.slept (Readme.handle_rate_limit (Some r) now)
         == inject_Z 1200)%Q)
  /\ (forall now : Q,
        (Readme.slept (Readme.handle_rate_limit None now) == inject_Z 1200)%Q).
Proof.
  split; [|split].
  - intros r now Hok Hrem.
    pose proof (handle_rate_limit_slept r now Hok) as Hs.
    rewrite Hrem in Hs. cbn [Readme.header_int] in Hs.
    rewrite Z.eqb_refl in Hs. split; [exact Hs|].
    intros Hreset Hnow. rewrite Hs, Hreset. cbn [Readme.header_int].
    unfold Readme.max0. change (inject_Z 0) with 0%Q.
    destruct (Qle_bool (0 - now) 0) eqn:Hle; [lra|].
    assert (~ (0 - now <= 0)%Q) by (rewrite <- Qle_bool_iff; congruence).
    exfalso. lra.
  - intros r now Hok. unfold Readme.handle_rate_limit. rewrite Hok.
    reflexivity.
  - intros now. reflexivity.
Qed.

Lemma handle_rate_limit_defaults_witness :
  (Readme.slept
     (Readme.handle_rate_limit (Some Samples.bare_response) (inject_Z 1700000000))
   == 1)%Q
  /\ (Readme.slept
        (Readme.handle_rate_limit (Some Samples.not_found) (inject_Z 1700000000))
      == inject_Z 1200)%Q.
Proof.
  split.
  - apply (proj2 (proj1 handle_rate_limit_defaults Samples.bare_response
                    (inject_Z 1700000000) eq_refl eq_refl)).
    + reflexivity.
    + discriminate.
  - apply (proj1 (proj2 handle_rate_limit_defaults) Samples.not_found).
    reflexivity.
Defined.

(** X14.  An exception leaves [get_content_from_github] exactly when the
    listing request raised it and it is neither an [HTTPError] nor a
    [Timeout]; the listing is returned exactly when the request returned
    it.  A failure of the rate-limit query is never one of the two. *)
Theorem get_content_from_github_lets_other_errors_through :
  forall (n : Readme.Net) (owner repo : string),
    (forall e,
        fst (Readme.get_content_from_github n owner repo) = Raise e
        <-> exists msg,
              e = Readme.Error msg
              /\ Readme.get_content n owner repo = Raise (Readme.Error msg))
    /\ (forall listing,
          fst (Readme.get_content_from_github n owner repo) = Ret (Some listing)
          <-> Readme.get_content n owner repo = Ret listing).
Proof.
  intros n owner repo. unfold Readme.get_content_from_github.
  destruct (Readme.get_content n owner repo) as [listing|[response| |msg]];
    [| destruct (Readme.status_code response =? 403)%Z | |]; cbn [fst]; split.
  all: try (intros e; split;
            [intros H; discriminate H
            |intros [m [_ H]]; discriminate H]).
  all: try (intros l; split; intros H; discriminate H).
  - intros l. split; intros H; inversion H; reflexivity.
  - intros e. split.
    + intros H. inversion H; subst. exists msg. split; reflexivity.
    + intros [m [He H]]. inversion H; subst. reflexivity.
Qed.

Lemma get_content_from_github_lets_other_errors_through_witness :
  fst (Readme.get_content_from_github (Samples.net_of [Samples.readme_plain])
         "o" "r")
  = Ret (Some [Samples.readme_plain]).
Proof.
  apply (proj2 (proj2 (get_content_from_github_lets_other_errors_through
                         (Samples.net_of [Samples.readme_plain]) "o" "r")
                  [Samples.readme_plain])).
  reflexivity.
Defined.

(** X15.  When the loop of [process_csv_file] reaches its end, the readme
    column has one cell per row; the cell of a row that is not a GitHub
    URL is empty, and every cell that is not empty holds a non-empty
    sanitized text between the two markers. *)
Theorem process_rows_fills_one_cell_per_row :
  forall (lib : Readme.PyLib) (rows : list (string * Readme.Net))
         (cells : list (option string)) (t : Readme.trace),
    @Readme.process_rows lib rows = (Ret cells, t) ->
    List.length cells = List.length rows
    /\ Forall2 (fun row cell =>
                  (Readme.is_github_url (fst row) = false -> cell = None)
                  /\ (forall s, cell = Some s ->
                        Readme.is_github_url (fst row) = true
                        /\ exists readme_content,
                             readme_content <> EmptyString
                             /\ s = Readme.wrap (Readme.sanitize readme_content)))
               rows cells.
Proof.
  intros lib rows cells t Hrun.
  pose proof (process_rows_cells rows cells t Hrun) as Hcells.
  split; [|exact Hcells].
  symmetry. exact (Forall2_length Hcells).
Qed.

Lemma process_rows_fills_one_cell_per_row_witness :
  List.length
    [None; Some (Readme.wrap "# Title"); None]
  = List.length
      [("https://gitlab.com/o/r", Samples.net_of [Samples.readme_plain]);
       ("https://github.com/o/r", Samples.net_of [Samples.readme_plain]);
       ("https://github.com/o/s", Samples.net_of [Samples.license_file])].
Proof.
  apply (process_rows_fills_one_cell_per_row CPython.lib
           [("https://gitlab.com/o/r", Samples.net_of [Samples.readme_plain]);
            ("https://github.com/o/r", Samples.net_of [Samples.readme_plain]);
            ("https://github.com/o/s", Samples.net_of [Samples.license_file])]
           [None; Some (Readme.wrap "# Title"); None]
           (snd (@Readme.process_rows CPython.lib
              [("https://gitlab.com/o/r", Samples.net_of [Samples.readme_plain]);
               ("https://github.com/o/r", Samples.net_of [Samples.readme_plain]);
               ("https://github.com/o/s", Samples.net_of [Samples.license_file])]))).
  reflexivity.
Defined.

(** ** download_stats.py *)

Section Registries.

Import DownloadStats.

Variable today : string.
Variable web : Web.
Variable repo : Repo.

Lemma fetch_row_spec (url : string) :
  requested (snd (fetch_row today web repo url)) = [url]
  /\ forall row, fst (fetch_row today web repo url) = Ret row ->
                 row_for today repo row.
Proof.
  unfold fetch_row.
  destruct (downloads web url) as [n|e]; [|split; [reflexivity|discriminate]].
  destruct (owner repo) as [o|] eqn:Ho; [|split; [reflexivity|discriminate]].
  split; [reflexivity|].
  intros row Hrow. inversion Hrow; subst.
  unfold row_for. simpl. rewrite Ho. repeat split.
Qed.

Lemma python_matches_grows (result : list Row) :
  forall matches,
    grows_by_one_row today repo result
      (fst (python_matches today web repo matches result))
      (snd (python_matches today web repo matches result)).
Proof.
  induction matches as [|group rest IH]; simpl.
  - exists []. rewrite app_nil_r. repeat split; simpl; auto.
  - destruct (String.eqb (repository_name repo) group); [|exact IH].
    destruct (fetch_row_spec (pypi_stats (repository_name repo))) as [Hreq Hrow].
    destruct (fetch_row today web repo (pypi_stats (repository_name repo)))
      as [[row|e] t]; simpl in *.
    + exists [row]. cbn [fst snd requested]. rewrite Hreq.
      repeat split; simpl; auto;
        try (constructor; [apply Hrow; reflexivity|constructor]).
    + exists []. cbn [fst snd requested]. rewrite app_nil_r, Hreq.
      repeat split; simpl; auto.
Qed.

Lemma requested_app (t1 t2 : trace) :
  requested (t1 ++ t2) = requested t1 ++ requested t2.
Proof.
  induction t1 as [|ev t1 IH]; simpl; [reflexivity|].
  destruct ev; simpl; rewrite ?IH; reflexivity.
Qed.

Lemma js_matches_grows (result : list Row) :
  forall matches,
    grows_by_one_row today repo result
      (fst (js_matches today web repo matches result))
      (snd (js_matches today web repo matches result)).
Proof.
  induction matches as [|group rest IH]; simpl.
  - exists []. rewrite app_nil_r. repeat split; simpl; auto.
  - destruct (Py.contains (repository_name repo) group); [|exact IH].
    set (url := if Py.contains "@" group then npm_stats group
                else npm_stats (repository_name repo)).
    destruct (fetch_row_spec url) as [Hreq Hrow].
    destruct (fetch_row today web repo url) as [[row|e] t]; simpl in *.
    + exists [row]. cbn [fst snd requested]. rewrite Hreq.
      repeat split; simpl; auto;
        try (constructor; [apply Hrow; reflexivity|constructor]).
    + exists []. cbn [fst snd requested].
      rewrite app_nil_r, requested_app, Hreq. repeat split; simpl; auto.
Qed.

Lemma r_matches_grows (result : list Row) :
  forall matches result',
    fst (r_matches today web repo matches result) = Ret result' ->
    grows_by_one_row today repo result result'
      (snd (r_matches today web repo matches result)).
Proof.
  induction matches as [|group rest IH]; intros result' Hrun; simpl in *.
  - inversion Hrun; subst. exists []. rewrite app_nil_r.
    repeat split; simpl; auto.
  - destruct (String.eqb (repository_name repo) group); [|exact (IH _ Hrun)].
    destruct (fetch_row_spec (cran_stats (repository_name repo))) as [Hreq Hrow].
    destruct (fetch_row today web repo (cran_stats (repository_name repo)))
      as [[row|e] t]; simpl in *; [|discriminate].
    inversion Hrun; subst.
    exists [row]. cbn [fst snd requested]. rewrite Hreq.
    repeat split; simpl; auto;
      try (constructor; [apply Hrow; reflexivity|constructor]).
Qed.

(** The R loop raises only for a match that names the package, with the
    exception of the CRAN request or the [KeyError] of a missing owner. *)
Lemma r_matches_raises (result : list Row) :
  forall matches e,
    fst (r_matches today web repo matches result) = Raise e ->
    In (repository_name repo) matches
    /\ (downloads web (cran_stats (repository_name repo)) = Raise e
        \/ (owner repo = None /\ e = Error "KeyError: 'owner'")).
Proof.
  induction matches as [|group rest IH]; intros e Hrun; simpl in *.
  - discriminate.
  - destruct (String.eqb (repository_name repo) group) eqn:Hname.
    + apply String.eqb_eq in Hname. split; [left; symmetry; exact Hname|].
      unfold fetch_row in Hrun.
      destruct (downloads web (cran_stats (repository_name repo))) as [n|e'].
      * destruct (owner repo) as [o|]; simpl in Hrun; [discriminate|].
        inversion Hrun; subst. right. split; reflexivity.
      * simpl in Hrun. inversion Hrun; subst. left. reflexivity.
    + destruct (IH e Hrun) as [Hin Hwhy]. split; [right; exact Hin|exact Hwhy].
Qed.

End Registries.

Section Lines.

Import DownloadStats.

Context {regex : Regex}.

Variable today : string.
Variable web : Web.

Lemma process_line_grows (repo : Repo) (result result' : list Row) (t : trace) :
  process_line today web repo result = (Ret result', t) ->
  exists added,
    result' = result ++ added
    /\ List.length added <= List.length (requested t)
    /\ List.length (requested t) <= 3
    /\ Forall (row_for today repo) added
    /\ (readme repo = None -> added = [] /\ t = []).
Proof.
  unfold process_line. intros Hrun.
  destruct (readme repo) as [text|].
  - pose proof (python_matches_grows today web repo result (pip_install_names text))
      as [a1 [H1 [L1 [Q1 F1]]]].
    destruct (python_matches today web repo (pip_install_names text) result)
      as [result1 t1]. cbn [fst snd] in *.
    pose proof (r_matches_grows today web repo result1 (install_packages_names text))
      as Hr.
    destruct (r_matches today web repo (install_packages_names text) result1)
      as [[result2|e] t2]; [|discriminate]. cbn [fst snd] in *.
    destruct (Hr result2 eq_refl) as [a2 [H2 [L2 [Q2 F2]]]].
    pose proof (js_matches_grows today web repo result2 (npm_install_names text))
      as [a3 [H3 [L3 [Q3 F3]]]].
    destruct (js_matches today web repo (npm_install_names text) result2)
      as [result3 t3]. cbn [fst snd] in *.
    inversion Hrun; subst.
    exists (a1 ++ a2 ++ a3).
    rewrite !requested_app, !length_app.
    split; [rewrite <- !app_assoc; reflexivity|].
    split; [lia|]. split; [lia|]. split; [|discriminate].
    apply Forall_app. split; [exact F1|].
    apply Forall_app. split; assumption.
  - inversion Hrun; subst. exists [].
    rewrite app_nil_r. repeat split; simpl; auto.
Qed.

Lemma process_line_raises (repo : Repo) (result : list Row) (e : exn) (t : trace) :
  process_line today web repo result = (Raise e, t) ->
  exists text,
    readme repo = Some text
    /\ In (repository_name repo) (install_packages_names text)
    /\ (downloads web (cran_stats (repository_name repo)) = Raise e
        \/ (owner repo = None /\ e = Error "KeyError: 'owner'")).
Proof.
  unfold process_line. intros Hrun.
  destruct (readme repo) as [text|]; [|discriminate].
  exists text. split; [reflexivity|].
  destruct (python_matches today web repo (pip_install_names text) result)
    as [result1 t1].
  pose proof (r_matches_raises today web repo result1 (install_packages_names text))
    as Hr.
  destruct (r_matches today web repo (install_packages_names text) result1)
    as [[result2|e'] t2]; cbn [fst] in Hr.
  - destruct (js_matches today web repo (npm_install_names text) result2).
    discriminate.
  - inversion Hrun; subst. exact (Hr e eq_refl).
Qed.

Lemma process_lines_grows :
  forall repos result result' t,
    process_lines today web repos result = (Ret result', t) ->
    exists added,
      result' = result ++ added
      /\ List.length added <= 3 * List.length repos
      /\ List.length added <= List.length (requested t)
      /\ Forall (fun row => exists repo, In repo repos /\ row_for today repo row)
                added.
Proof.
  induction repos as [|repo repos IH]; intros result result' t Hrun; simpl in Hrun.
  - inversion Hrun; subst. exists []. rewrite app_nil_r.
    repeat split; simpl; auto.
  - destruct (process_line today web repo result) as [[result1|e] t1] eqn:Hline;
      [|discriminate].
    destruct (process_lines today web repos result1) as [r t2] eqn:Hrest.
    unfold after in Hrun. cbn [fst snd] in Hrun. inversion Hrun; subst.
    destruct (process_line_grows repo result result1 t1 Hline)
      as [a1 [H1 [L1 [Q1 [F1 _]]]]].
    destruct (IH result1 result' t2 Hrest) as [a2 [H2 [L2 [R2 F2]]]].
    exists (a1 ++ a2). subst.
    rewrite requested_app, !length_app. simpl List.length.
    split; [rewrite <- app_assoc; reflexivity|].
    split; [lia|]. split; [lia|].
    apply Forall_app. split.
    + eapply Forall_impl; [|exact F1].
      intros row Hrow. exists repo. split; [left; reflexivity|exact Hrow].
    + eapply Forall_impl; [|exact F2].
      intros row [repo' [Hin Hrow]]. exists repo'.
      split; [right; exact Hin|exact Hrow].
Qed.

(** The loop over the matches of npm install looks up the first match
    that contains the name and no other. *)
Lemma js_matches_first (repo : Repo) (result : list Row)
  (group : string) (behind : list string) :
  Py.contains (repository_name repo) group = true ->
  forall before,
    (forall g, In g before -> Py.contains (repository_name repo) g = false) ->
    requested (snd (js_matches today web repo (before ++ group :: behind) result))
    = [if Py.contains "@" group then npm_stats group
       else npm_stats (repository_name repo)].
Proof.
  intros Hgroup. induction before as [|g before IH]; intros Hbefore; simpl.
  - rewrite Hgroup.
    set (url := if Py.contains "@" group then npm_stats group
                else npm_stats (repository_name repo)).
    destruct (fetch_row_spec today web repo url) as [Hreq _].
    destruct (fetch_row today web repo url) as [[row|e] t]; cbn [snd] in *;
      cbn [requested]; rewrite ?requested_app, Hreq; reflexivity.
  - rewrite (Hbefore g (or_introl eq_refl)).
    apply IH. intros g' Hin. apply Hbefore. right. exact Hin.
Qed.

End Lines.

(** X16.  For one line of the input, the three lookups together make at
    most three requests and append at most one row per answered request;
    every new row carries the name and the owner of that repository and
    the date of the run, and the rows collected before stay as they are.
    A repository without the key readme costs no request and adds no
    row. *)
Theorem process_line_adds_rows_of_its_repository :
  forall (regex : DownloadStats.Regex) (today : string) (web : DownloadStats.Web)
         (repo : DownloadStats.Repo) (result result' : list DownloadStats.Row)
         (t : DownloadStats.trace),
    @DownloadStats.process_line regex today web repo result = (Ret result', t) ->
    exists added,
      result' = result ++ added
      /\ List.length added <= List.length (DownloadStats.requested t)
      /\ List.length (DownloadStats.requested t) <= 3
      /\ Forall (DownloadStats.row_for today repo) added
      /\ (DownloadStats.readme repo = None -> added = [] /\ t = []).
Proof.
  intros regex today web repo result result' t Hrun.
  exact (process_line_grows today web repo result result' t Hrun).
Qed.

Lemma process_line_adds_rows_of_its_repository_witness :
  exists added,
    [DownloadStats.mkRow "howfairis" "fair-software" 1234 "2024-05-01";
     DownloadStats.mkRow "howfairis" "fair-software" 1234 "2024-05-01"]
    = [] ++ added
    /\ List.length added
       <= List.length
            (DownloadStats.requested
               (snd (@DownloadStats.process_line Samples.stats_regex "2024-05-01"
                       Samples.stats_web Samples.stats_repo [])))
    /\ List.length
         (DownloadStats.requested
            (snd (@DownloadStats.process_line Samples.stats_regex "2024-05-01"
                    Samples.stats_web Samples.stats_repo []))) <= 3
    /\ Forall (DownloadStats.row_for "2024-05-01" Samples.stats_repo) added
    /\ (DownloadStats.readme Samples.stats_repo = None ->
        added = []
        /\ snd (@DownloadStats.process_line Samples.stats_regex "2024-05-01"
                  Samples.stats_web Samples.stats_repo []) = []).
Proof.
  apply (process_line_adds_rows_of_its_repository Samples.stats_regex
           "2024-05-01" Samples.stats_web Samples.stats_repo []).
  reflexivity.
Defined.

(** X17.  The processing of a line raises, and so ends the script, in
    these cases only.  The line is not JSON, is not a JSON object, or has
    no key repository_name: the exception is raised before any lookup.
    Or the name is not a [str] and the README has a match of the pattern
    for npm install: [TypeError], again without any request.  Or the
    README holds an install.packages call that names the package and the
    CRAN lookup fails (its request, or the [KeyError] of a missing owner
    raised in that branch).  Failures of the PyPI and npm lookups never
    leave the line. *)
Theorem a_line_raises_before_the_lookups_or_in_the_cran_lookup :
  forall (regex : DownloadStats.Regex) (today : string) (web : DownloadStats.Web)
         (l : DownloadStats.line) (result : list DownloadStats.Row)
         (e : DownloadStats.exn) (t : DownloadStats.trace),
    @DownloadStats.process_raw_line regex today web l result = (Raise e, t) ->
    ((l = DownloadStats.Malformed \/ l = DownloadStats.NotAnObject
      \/ l = DownloadStats.NoName
      \/ exists text,
           l = DownloadStats.NameNotStr (Some text)
           /\ DownloadStats.npm_install_names text <> [])
     /\ t = [])
    \/ (exists repo text,
          l = DownloadStats.Object repo
          /\ DownloadStats.readme repo = Some text
          /\ In (DownloadStats.repository_name repo)
                (DownloadStats.install_packages_names text)
          /\ (DownloadStats.downloads web
                (DownloadStats.cran_stats (DownloadStats.repository_name repo))
              = Raise e
              \/ (DownloadStats.owner repo = None
                  /\ e = DownloadStats.Error "KeyError: 'owner'"))).
Proof.
  intros regex today web l result e t Hrun.
  destruct l as [| | |[text|]|repo]; simpl in Hrun.
  - left. inversion Hrun. split; [left; reflexivity|reflexivity].
  - left. inversion Hrun. split; [right; left; reflexivity|reflexivity].
  - left. inversion Hrun. split; [right; right; left; reflexivity|reflexivity].
  - left. destruct (DownloadStats.npm_install_names text) as [|g gs] eqn:Hnpm;
      [discriminate|].
    inversion Hrun. split; [|reflexivity].
    right; right; right. exists text. split; [reflexivity|].
    rewrite Hnpm. discriminate.
  - discriminate.
  - right. destruct (process_line_raises today web repo result e t Hrun)
      as [text Htext].
    exists repo, text. split; [reflexivity|exact Htext].
Qed.

Lemma a_line_raises_before_the_lookups_or_in_the_cran_lookup_witness :
  ((DownloadStats.Object Samples.stats_repo = DownloadStats.Malformed
    \/ DownloadStats.Object Samples.stats_repo = DownloadStats.NotAnObject
    \/ DownloadStats.Object Samples.stats_repo = DownloadStats.NoName
    \/ exists text,
         DownloadStats.Object Samples.stats_repo
         = DownloadStats.NameNotStr (Some text)
         /\ @DownloadStats.npm_install_names Samples.stats_regex_r text <> [])
   /\ snd (@DownloadStats.process_raw_line Samples.stats_regex_r "2024-05-01"
             Samples.stats_web (DownloadStats.Object Samples.stats_repo) [])
      = [])
  \/ (exists repo text,
        DownloadStats.Object Samples.stats_repo = DownloadStats.Object repo
        /\ DownloadStats.readme repo = Some text
        /\ In (DownloadStats.repository_name repo)
              (@DownloadStats.install_packages_names Samples.stats_regex_r text)
        /\ (DownloadStats.downloads Samples.stats_web
              (DownloadStats.cran_stats (DownloadStats.repository_name repo))
            = Raise (DownloadStats.Error "IndexError: list index out of range")
            \/ (DownloadStats.owner repo = None
                /\ DownloadStats.Error "IndexError: list index out of range"
                   = DownloadStats.Error "KeyError: 'owner'"))).
Proof.
  apply (a_line_raises_before_the_lookups_or_in_the_cran_lookup
           Samples.stats_regex_r "2024-05-01" Samples.stats_web
           (DownloadStats.Object Samples.stats_repo) []
           (DownloadStats.Error "IndexError: list index out of range")).
  reflexivity.
Defined.

(** X18.  When the loop over the input lines reaches its end, the list
    handed to the data frame is the initial list followed by new rows:
    at most three per line, never more than requests were made, each one
    carrying the name and owner of one of the input repositories. *)
Theorem process_lines_rows_belong_to_input_repositories :
  forall (regex : DownloadStats.Regex) (today : string) (web : DownloadStats.Web)
         (repos : list DownloadStats.Repo)
         (result result' : list DownloadStats.Row) (t : DownloadStats.trace),
    @DownloadStats.process_lines regex today web repos result = (Ret result', t) ->
    exists added,
      result' = result ++ added
      /\ List.length added <= 3 * List.length repos
      /\ List.length added <= List.length (DownloadStats.requested t)
      /\ Forall (fun row => exists repo,
                     In repo repos /\ DownloadStats.row_for today repo row)
                added.
Proof.
  intros regex today web repos result result' t Hrun.
  exact (process_lines_grows today web repos result result' t Hrun).
Qed.

Lemma process_lines_rows_belong_to_input_repositories_witness :
  exists added,
    [DownloadStats.mkRow "howfairis" "fair-software" 1234 "2024-05-01";
     DownloadStats.mkRow "howfairis" "fair-software" 1234 "2024-05-01"]
    = [] ++ added
    /\ List.length added
       <= 3 * List.length
                [DownloadStats.mkRepo "quiet" (Some "nobody") None;
                 Samples.stats_repo]
    /\ List.length added
       <= List.length
            (DownloadStats.requested
               (snd (@DownloadStats.process_lines Samples.stats_regex
                       "2024-05-01" Samples.stats_web
                       [DownloadStats.mkRepo "quiet" (Some "nobody") None;
                        Samples.stats_repo] [])))
    /\ Forall (fun row => exists repo,
                   In repo [DownloadStats.mkRepo "quiet" (Some "nobody") None;
                            Samples.stats_repo]
                   /\ DownloadStats.row_for "2024-05-01" repo row)
              added.
Proof.
  apply (process_lines_rows_belong_to_input_repositories Samples.stats_regex
           "2024-05-01" Samples.stats_web
           [DownloadStats.mkRepo "quiet" (Some "nobody") None; Samples.stats_repo]
           []).
  reflexivity.
Defined.

(** X19.  The npm lookup looks at the matches in order and makes exactly
    one request, for the first match that contains the repository name:
    under the matched text when it holds an [@] (a scoped package), under
    the repository name otherwise.  Later matches are not looked up. *)
Theorem npm_lookup_requests_the_first_match_only :
  forall (today : string) (web : DownloadStats.Web) (repo : DownloadStats.Repo)
         (result : list DownloadStats.Row) (before behind : list string)
         (group : string),
    (forall g, In g before ->
       Py.contains (DownloadStats.repository_name repo) g = false) ->
    Py.contains (DownloadStats.repository_name repo) group = true ->
    DownloadStats.requested
      (snd (DownloadStats.js_matches today web repo
              (before ++ group :: behind) result))
    = [if Py.contains "@" group then DownloadStats.npm_stats group
       else DownloadStats.npm_stats (DownloadStats.repository_name repo)].
Proof.
  intros today web repo result before behind group Hbefore Hgroup.
  exact (js_matches_first today web repo result group behind Hgroup before Hbefore).
Qed.

Lemma npm_lookup_requests_the_first_match_only_witness :
  DownloadStats.requested
    (snd (DownloadStats.js_matches "2024-05-01" Samples.stats_web
            Samples.stats_repo
            (["left-pad"] ++ "@fair-software/howfairis" :: ["howfairis"]) []))
  = ["https://api.npmjs.org/downloads/point/last-month/@fair-software/howfairis"].
Proof.
  apply (npm_lookup_requests_the_first_match_only "2024-05-01" Samples.stats_web
           Samples.stats_repo [] ["left-pad"] ["howfairis"]
           "@fair-software/howfairis").
  - intros g [Hg|[]]. subst g. reflexivity.
  - reflexivity.
Defined.

(** X20.  When the rate-limit query of the README script fails,
    [get_content_from_github] prints the failure, sleeps twenty minutes
    and then sends the listing request all the same. *)
Theorem failed_rate_limit_query_delays_the_listing_request :
  forall (n : Readme.Net) (owner repo : string) (e : Readme.exn),
    Readme.rate_limit n = Raise e ->
    exists t,
      snd (Readme.get_content_from_github n owner repo)
      = [Readme.CallRateLimit; Readme.Print Readme.RateCheckFailed;
         Readme.Sleep (inject_Z 1200); Readme.CallGetContent owner repo] ++ t.
Proof.
  intros n owner repo e Hq.
  destruct (get_content_from_github_calls n owner repo) as [t Ht].
  exists t. rewrite Ht, (check_rate_limit_fallback n e Hq). reflexivity.
Qed.

Lemma failed_rate_limit_query_delays_the_listing_request_witness :
  exists t,
    snd (Readme.get_content_from_github
           (Samples.net_query_down [Samples.readme_plain]) "o" "r")
    = [Readme.CallRateLimit; Readme.Print Readme.RateCheckFailed;
       Readme.Sleep (inject_Z 1200); Readme.CallGetContent "o" "r"] ++ t.
Proof.
  apply (failed_rate_limit_query_delays_the_listing_request
           (Samples.net_query_down [Samples.readme_plain]) "o" "r"
           (Readme.Error "Connection refused")).
  reflexivity.
Defined.
